(** * Ray-cast selection and depth-ray manipulation (class [Game])

    A shallow embedding of the scene controller of the ray casting
    example: the fields of [Game], the part of the scene graph its
    handlers read and write, the two per-frame handlers
    [onRightTrigger] and [onRightThumbstick], and the controller
    connect/disconnect callbacks registered by [createScene].

    JavaScript numbers are IEEE 754 binary64 values and are modelled by
    Rocq's primitive [float]s.  Objects are modelled by references into a
    store ([Scene]); a [null]/[undefined] reference is [None], and reading
    a member through one raises [TypeError]. *)

From Stdlib Require Import Floats ZArith Bool List Lia.
From stdpp Require Import base functions strings gmap.
Import ListNotations.

Open Scope float_scope.
#[local] Set Warnings "-inexact-float".

(** ** Maths *)

Module Vector3.
Record t := mk { x : float; y : float; z : float }.
Definition Zero : t := mk 0 0 0.
(** [axis.scale(distance)], the displacement of a [translate]. *)
Definition scale (v : t) (k : float) : t := mk (x v * k) (y v * k) (z v * k).
(** Every coordinate is a finite number; every coordinate is a zero. *)
Definition isFinite (v : t) : bool := is_finite (x v) && is_finite (y v) && is_finite (z v).
Definition isZero (v : t) : bool := is_zero (x v) && is_zero (y v) && is_zero (z v).
End Vector3.

Module Color3.
Record t := mk { r : float; g : float; b : float }.
Definition Yellow : t := mk 1 1 0.
Definition Green : t := mk 0 1 0.
Definition Blue : t := mk 0 0 1.
Definition White : t := mk 1 1 1.
End Color3.

Inductive Space := LOCAL | WORLD.

Module Ray.
Record t := mk { origin : Vector3.t; direction : Vector3.t; length : float }.
End Ray.

(** ** References to scene nodes

    The meshes of the scene: the ground and the skybox of the default
    environment, the laser pointer line, the test-bed cubes and the
    pointer mesh of every XR input source (named by its [uniqueId]). *)

Inductive MeshRef :=
| Ground
| Skybox
| LaserPointer
| Cube (i : nat)
| Pointer (uniqueId : string).

Inductive TransformRef := SelectionTransform.

Inductive NodeRef :=
| OfMesh (m : MeshRef)
| OfTransform (t : TransformRef).

#[global] Instance MeshRef_eq_dec : EqDecision MeshRef.
Proof. solve_decision. Defined.
#[global] Instance TransformRef_eq_dec : EqDecision TransformRef.
Proof. solve_decision. Defined.
#[global] Instance NodeRef_eq_dec : EqDecision NodeRef.
Proof. solve_decision. Defined.

(** ** Scene objects *)

(** The members of a mesh that the program touches.  [edgesRendering] is
    the state toggled by [enableEdgesRendering]/[disableEdgesRendering];
    [color] and [alpha] are the [LinesMesh] members, only ever accessed
    through [laserPointer]. *)
Module AbstractMesh.
Record t := mk {
  parent : option NodeRef;
  isPickable : bool;
  visibility : float;
  edgesRendering : bool;
  color : Color3.t;
  alpha : float
}.
(** A freshly built mesh. *)
Definition create : t := mk None true 1 false Color3.White 1.
Definition set_parent (p : option NodeRef) (m : t) : t :=
  mk p (isPickable m) (visibility m) (edgesRendering m) (color m) (alpha m).
Definition set_isPickable (v : bool) (m : t) : t :=
  mk (parent m) v (visibility m) (edgesRendering m) (color m) (alpha m).
Definition set_visibility (v : float) (m : t) : t :=
  mk (parent m) (isPickable m) v (edgesRendering m) (color m) (alpha m).
Definition set_edgesRendering (v : bool) (m : t) : t :=
  mk (parent m) (isPickable m) (visibility m) v (color m) (alpha m).
Definition set_color (v : Color3.t) (m : t) : t :=
  mk (parent m) (isPickable m) (visibility m) (edgesRendering m) v (alpha m).
Definition set_alpha (v : float) (m : t) : t :=
  mk (parent m) (isPickable m) (visibility m) (edgesRendering m) (color m) v.
End AbstractMesh.

Module TransformNode.
Record t := mk { parent : option NodeRef; position : Vector3.t }.
Definition create : t := mk None Vector3.Zero.
Definition set_parent (p : option NodeRef) (n : t) : t := mk p (position n).
Definition set_position (v : Vector3.t) (n : t) : t := mk (parent n) v.
End TransformNode.

(** Calls into the engine whose effect is not (only) a member update:
    they are recorded, oldest first, in [Scene.calls]. *)
Module Call.
Inductive t :=
| disableEdgesRendering (m : MeshRef)
| enableEdgesRendering (m : MeshRef)
| setParent (m : MeshRef) (node : option NodeRef)
| translate (m : MeshRef) (axis : Vector3.t) (distance : float) (space : Space)
| pulse (uniqueId : string) (value duration : float).
End Call.

Module Scene.
Record t := mk {
  meshes : MeshRef -> AbstractMesh.t;
  transforms : TransformRef -> TransformNode.t;
  calls : list Call.t
}.
Definition create : t :=
  mk (fun _ => AbstractMesh.create) (fun _ => TransformNode.create) [].
Definition update_mesh (m : MeshRef) (f : AbstractMesh.t -> AbstractMesh.t) (s : t) : t :=
  mk (alter f m (meshes s)) (transforms s) (calls s).
Definition update_transform (n : TransformRef) (f : TransformNode.t -> TransformNode.t) (s : t) : t :=
  mk (meshes s) (alter f n (transforms s)) (calls s).
Definition record (c : Call.t) (s : t) : t :=
  mk (meshes s) (transforms s) (calls s ++ [c]).
End Scene.

(** ** XR input *)

Module WebXRControllerComponent.
Record changesValues := mkValues { current : bool; previous : bool }.
Record axesT := mkAxes { x : float; y : float }.
Record t := mk {
  pressed : bool;
  changes_pressed : option changesValues;   (* [changes.pressed] *)
  axes : axesT
}.
End WebXRControllerComponent.

Module WebXRAbstractMotionController.
Record t := mk { components : gmap string WebXRControllerComponent.t }.
Definition getComponent (mc : t) (id : string) : option WebXRControllerComponent.t :=
  components mc !! id.
End WebXRAbstractMotionController.

Module PickingInfo.
Record t := mk { hit : bool; pickedMesh : option MeshRef; distance : float }.
Definition empty : t := mk false None 0.
End PickingInfo.

(** What the engine supplies in one rendered frame: the motion controller
    currently attached to each input source, the members [position] and
    [forward] of the meshes as the engine computed them for this frame,
    the frame time in milliseconds, and the meshes a ray geometrically
    crosses within its length, with their distances. *)
Module Frame.
Record t := mk {
  motionController : string -> option WebXRAbstractMotionController.t;
  position : MeshRef -> Vector3.t;
  forward : MeshRef -> Vector3.t;
  getDeltaTime : float;
  intersections : Ray.t -> list (MeshRef * float)
}.
End Frame.

(** ** The fields of [Game]

    [canvas], [engine], [scene] and [xrCamera] are handles on the engine;
    the scene handle is modelled by the store itself.  An input source is
    referred to by its [uniqueId]. *)
Module Game.
Record t := mk {
  scene : Scene.t;
  leftController : option string;
  rightController : option string;
  selectedObject : option MeshRef;
  selectionTransform : option TransformRef;
  laserPointer : option MeshRef
}.
Definition set_scene (v : Scene.t) (g : t) : t :=
  mk v (leftController g) (rightController g) (selectedObject g)
     (selectionTransform g) (laserPointer g).
Definition set_leftController (v : option string) (g : t) : t :=
  mk (scene g) v (rightController g) (selectedObject g)
     (selectionTransform g) (laserPointer g).
Definition set_rightController (v : option string) (g : t) : t :=
  mk (scene g) (leftController g) v (selectedObject g)
     (selectionTransform g) (laserPointer g).
Definition set_selectedObject (v : option MeshRef) (g : t) : t :=
  mk (scene g) (leftController g) (rightController g) v
     (selectionTransform g) (laserPointer g).
Definition set_selectionTransform (v : option TransformRef) (g : t) : t :=
  mk (scene g) (leftController g) (rightController g) (selectedObject g)
     v (laserPointer g).
Definition set_laserPointer (v : option MeshRef) (g : t) : t :=
  mk (scene g) (leftController g) (rightController g) (selectedObject g)
     (selectionTransform g) v.
End Game.

(** ** Statements of a method: state passing with [TypeError]

    A statement either completes on a new state or throws; the state at
    the throw is kept, since the writes made before it are not undone. *)

Inductive Result (A : Type) :=
| Ok (a : A) (g : Game.t)
| TypeError (g : Game.t).
Arguments Ok {A} a g.
Arguments TypeError {A} g.

Definition M (A : Type) : Type := Game.t -> Result A.

#[global] Instance M_ret : MRet M := fun A a g => Ok a g.
#[global] Instance M_bind : MBind M := fun A B k m g =>
  match m g with
  | Ok a g' => k a g'
  | TypeError g' => TypeError g'
  end.

Definition get : M Game.t := fun g => Ok g g.
Definition modify (f : Game.t -> Game.t) : M unit := fun g => Ok tt (f g).
Definition skip : M unit := mret tt.

(** [o!.member]: reading a member through [o]. *)
Definition deref {A} (o : option A) : M A :=
  fun g => match o with Some a => Ok a g | None => TypeError g end.

Definition modify_scene (f : Scene.t -> Scene.t) : M unit :=
  modify (fun g => Game.set_scene (f (Game.scene g)) g).

(** The state a statement stops in, completed or thrown. *)
Definition final {A} (r : Result A) : Game.t :=
  match r with Ok _ g => g | TypeError g => g end.

(** ** Engine operations *)

(** [mesh.disableEdgesRendering()] *)
Definition disableEdgesRendering (m : MeshRef) : M unit :=
  modify_scene (fun s =>
    Scene.record (Call.disableEdgesRendering m)
      (Scene.update_mesh m (AbstractMesh.set_edgesRendering false) s)).

(** [mesh.enableEdgesRendering()] *)
Definition enableEdgesRendering (m : MeshRef) : M unit :=
  modify_scene (fun s =>
    Scene.record (Call.enableEdgesRendering m)
      (Scene.update_mesh m (AbstractMesh.set_edgesRendering true) s)).

(** [mesh.setParent(node)]: the engine re-parents [mesh] to [node] (or
    detaches it, for [null]) and recomputes its local transform so that
    its world transform is the one it had; plain assignment to [parent]
    keeps the local transform instead.  The store keeps the parent link;
    the recorded call tells the two apart. *)
Definition setParent (m : MeshRef) (node : option NodeRef) : M unit :=
  modify_scene (fun s =>
    Scene.record (Call.setParent m node)
      (Scene.update_mesh m (AbstractMesh.set_parent node) s)).

(** [mesh.translate(axis, distance, space)]: in world space the engine
    adds [axis.scale(distance)] to the absolute position of [mesh]. *)
Definition translate (m : MeshRef) (axis : Vector3.t) (distance : float) (space : Space) : M unit :=
  modify_scene (Scene.record (Call.translate m axis distance space)).

(** [node.parent = p], [mesh.color = c] and the like: member writes. *)
Definition assign_mesh (m : MeshRef) (f : AbstractMesh.t -> AbstractMesh.t) : M unit :=
  modify_scene (Scene.update_mesh m f).
Definition assign_transform (n : TransformRef) (f : TransformNode.t -> TransformNode.t) : M unit :=
  modify_scene (Scene.update_transform n f).

(** Of two crossings, the one at the smaller distance (the earlier one on
    a tie). *)
Definition nearer (a b : MeshRef * float) : MeshRef * float :=
  if snd b <? snd a then b else a.

(** Modelled from the spec: the engine's ray caster [scene.pickWithRay],
    which is not part of the sources.  It "returns the nearest intersected
    object and hit distance, or no hit"; called without a predicate, as
    here, the engine considers only meshes whose [isPickable] is set.
    The geometry (which meshes the ray crosses, and where) is the frame's
    [intersections]. *)
Definition pick (s : Scene.t) (crossings : list (MeshRef * float)) : PickingInfo.t :=
  match List.filter (fun h => AbstractMesh.isPickable (Scene.meshes s (fst h))) crossings with
  | [] => PickingInfo.empty
  | h :: rest =>
      let (m, d) := fold_left nearer rest h in
      PickingInfo.mk true (Some m) d
  end.

Definition pickWithRay (f : Frame.t) (ray : Ray.t) : M (option PickingInfo.t) :=
  g ← get;
  mret (Some (pick (Game.scene g) (Frame.intersections f ray))).

(** [s.endsWith(suffix)] *)
Definition endsWith (s suffix : string) : bool :=
  (String.length suffix <=? String.length s)%nat
  && String.eqb (String.substring (String.length s - String.length suffix)
                           (String.length suffix) s) suffix.

(** [o] is neither [null] nor [undefined]. *)
Definition isDefined {A} (o : option A) : bool :=
  match o with Some _ => true | None => false end.

(** ** The methods of [Game] *)

(** The state the constructor leaves: every reference field is [null]. *)
Definition constructor : Game.t :=
  Game.mk Scene.create None None None None None.

(** The part of [createScene] that builds what the handlers use: the
    environment's ground and skybox, the laser pointer and the selection
    transform.  The cubes are left as the mesh builder makes them. *)
Definition createScene : M unit :=
  assign_mesh Ground (AbstractMesh.set_isPickable false);;
  assign_mesh Skybox (AbstractMesh.set_isPickable false);;
  modify (Game.set_laserPointer (Some LaserPointer));;
  assign_mesh LaserPointer (AbstractMesh.set_color Color3.Yellow);;
  assign_mesh LaserPointer (AbstractMesh.set_alpha 0.5);;
  assign_mesh LaserPointer (AbstractMesh.set_visibility 0);;
  assign_mesh LaserPointer (AbstractMesh.set_isPickable false);;
  modify (Game.set_selectionTransform (Some SelectionTransform));;
  g ← get;
  assign_transform SelectionTransform
    (TransformNode.set_parent (OfMesh <$> Game.laserPointer g)).

(** The callback on [onControllerAddedObservable]. *)
Definition onControllerAdded (uniqueId : string) : M unit :=
  if endsWith uniqueId "right" then
    modify (Game.set_rightController (Some uniqueId));;
    g ← get;
    lp ← deref (Game.laserPointer g);
    assign_mesh lp (AbstractMesh.set_parent (OfMesh ∘ Pointer <$> Game.rightController g));;
    assign_mesh lp (AbstractMesh.set_visibility 1)
  else
    modify (Game.set_leftController (Some uniqueId)).

(** The callback on [onControllerRemovedObservable]. *)
Definition onControllerRemoved (uniqueId : string) : M unit :=
  if endsWith uniqueId "right" then
    g ← get;
    lp ← deref (Game.laserPointer g);
    assign_mesh lp (AbstractMesh.set_parent None);;
    assign_mesh lp (AbstractMesh.set_visibility 0)
  else skip.

(** [this.rightController?.motionController] *)
Definition rightMotionController (f : Frame.t) (g : Game.t)
  : option WebXRAbstractMotionController.t :=
  match Game.rightController g with
  | Some rc => Frame.motionController f rc
  | None => None
  end.

(** [this.rightController?.motionController?.getComponent(id)] *)
Definition componentOf (f : Frame.t) (g : Game.t) (id : string)
  : option WebXRControllerComponent.t :=
  match rightMotionController f g with
  | Some mc => WebXRAbstractMotionController.getComponent mc id
  | None => None
  end.

Definition rightComponent (f : Frame.t) (id : string) : M (option WebXRControllerComponent.t) :=
  g ← get;
  mret (componentOf f g id).

(** [this.rightController?.motionController?.pulse(value, duration)] *)
Definition rightPulse (f : Frame.t) (value duration : float) : M unit :=
  g ← get;
  match Game.rightController g with
  | Some rc =>
      if isDefined (Frame.motionController f rc)
      then modify_scene (Scene.record (Call.pulse rc value duration))
      else skip
  | None => skip
  end.

(** The blocks of [onRightTrigger], named after their comments. *)

(** "Deselect the currently selected object" *)
Definition deselect : M unit :=
  g ← get;
  match Game.selectedObject g with
  | Some so =>
      disableEdgesRendering so;;
      modify (Game.set_selectedObject None)
  | None => skip
  end.

(** "If an object was hit, select it" *)
Definition selectHit (f : Frame.t) (pickInfo : option PickingInfo.t) : M unit :=
  if default false (PickingInfo.hit <$> pickInfo) then
    info ← deref pickInfo;
    modify (Game.set_selectedObject (PickingInfo.pickedMesh info));;
    g ← get;
    so ← deref (Game.selectedObject g);
    enableEdgesRendering so;;
    (* Parent the object to the transform on the laser pointer *)
    st ← deref (Game.selectionTransform g);
    assign_transform st
      (TransformNode.set_position (Vector3.mk 0 0 (PickingInfo.distance info)));;
    setParent so (Some (OfTransform st));;
    (* Emit a haptic pulse *)
    rightPulse f 0.2 50
  else skip.

(** "Release the object from the laser pointer" *)
Definition release (f : Frame.t) : M unit :=
  g ← get;
  match Game.selectedObject g with
  | Some so =>
      setParent so None;;
      (* Emit a haptic pulse *)
      rightPulse f 0.2 50
  | None => skip
  end.

Definition onRightTrigger (f : Frame.t) (component : option WebXRControllerComponent.t) : M unit :=
  if isDefined (component ≫= WebXRControllerComponent.changes_pressed) then
    if default false (WebXRControllerComponent.pressed <$> component) then
      g ← get;
      lp ← deref (Game.laserPointer g);
      assign_mesh lp (AbstractMesh.set_color Color3.Green);;
      rc ← deref (Game.rightController g);
      let ray := Ray.mk (Frame.position f (Pointer rc)) (Frame.forward f (Pointer rc)) 20 in
      pickInfo ← pickWithRay f ray;
      deselect;;
      selectHit f pickInfo
    else
      g ← get;
      (* Reset the laser pointer color *)
      lp ← deref (Game.laserPointer g);
      assign_mesh lp (AbstractMesh.set_color Color3.Blue);;
      release f
  else skip.

(** The distance of the reel move: [-axes.y * (deltaTime / 1000) * 3]. *)
Definition moveDistance (axes_y deltaTime : float) : float :=
  (- axes_y) * (deltaTime / 1000) * 3.

Definition onRightThumbstick (f : Frame.t) (component : option WebXRControllerComponent.t) : M unit :=
  g ← get;
  match Game.selectedObject g with
  | Some so =>
      if isDefined (AbstractMesh.parent (Scene.meshes (Game.scene g) so)) then
        c ← deref component;
        let moveDistance :=
          moveDistance (WebXRControllerComponent.y (WebXRControllerComponent.axes c))
                       (Frame.getDeltaTime f) in
        lp ← deref (Game.laserPointer g);
        translate so (Frame.forward f lp) moveDistance WORLD
      else skip
  | None => skip
  end.

Definition processControllerInput (f : Frame.t) : M unit :=
  trigger ← rightComponent f "xr-standard-trigger";
  onRightTrigger f trigger;;
  thumbstick ← rightComponent f "xr-standard-thumbstick";
  onRightThumbstick f thumbstick.

Definition update (f : Frame.t) : M unit := processControllerInput f.

(** ** Sessions: the callbacks the engine makes after [createScene] *)

Inductive Event :=
| ControllerAdded (uniqueId : string)
| ControllerRemoved (uniqueId : string)
| RenderLoop (f : Frame.t).

Definition dispatch (e : Event) : M unit :=
  match e with
  | ControllerAdded uid => onControllerAdded uid
  | ControllerRemoved uid => onControllerRemoved uid
  | RenderLoop f => update f
  end.

(** The state after [createScene] and then the callbacks [es], in order.
    A callback that throws leaves the state it had reached. *)
Definition exec (es : list Event) : Game.t :=
  fold_left (fun g e => final (dispatch e g)) es (final (createScene constructor)).

(** ** Observations on a state *)

Definition mesh (g : Game.t) (m : MeshRef) : AbstractMesh.t :=
  Scene.meshes (Game.scene g) m.
Definition highlighted (g : Game.t) (m : MeshRef) : bool :=
  AbstractMesh.edgesRendering (mesh g m).
Definition parentOf (g : Game.t) (m : MeshRef) : option NodeRef :=
  AbstractMesh.parent (mesh g m).
Definition anchor (g : Game.t) : TransformNode.t :=
  Scene.transforms (Game.scene g) SelectionTransform.
Definition laserColor (g : Game.t) : Color3.t :=
  AbstractMesh.color (mesh g LaserPointer).
Definition calls (g : Game.t) : list Call.t :=
  Scene.calls (Game.scene g).

(** The ray [onRightTrigger] casts for the controller [rc]. *)
Definition pointerRay (f : Frame.t) (rc : string) : Ray.t :=
  Ray.mk (Frame.position f (Pointer rc)) (Frame.forward f (Pointer rc)) 20.

(** The trigger changed in this frame, to pressed or to released. *)
Definition pressEdge (c : WebXRControllerComponent.t) : bool :=
  isDefined (WebXRControllerComponent.changes_pressed c)
  && WebXRControllerComponent.pressed c.
Definition releaseEdge (c : WebXRControllerComponent.t) : bool :=
  isDefined (WebXRControllerComponent.changes_pressed c)
  && negb (WebXRControllerComponent.pressed c).

(** [createScene] has run: the laser pointer and the selection transform
    exist. *)
Definition ready (g : Game.t) : Prop :=
  Game.laserPointer g = Some LaserPointer
  /\ Game.selectionTransform g = Some SelectionTransform.

(** The calls that deselect the current selection, if any. *)
Definition deselectCalls (g : Game.t) : list Call.t :=
  match Game.selectedObject g with
  | Some so => [Call.disableEdgesRendering so]
  | None => []
  end.

(** [laserPointer.color = c], the only write of a release that has
    nothing to release. *)
Definition paintLaser (c : Color3.t) (g : Game.t) : Game.t :=
  Game.set_scene
    (Scene.update_mesh LaserPointer (AbstractMesh.set_color c) (Game.scene g)) g.

(** The state with one more recorded call. *)
Definition recorded (c : Call.t) (g : Game.t) : Game.t :=
  Game.set_scene (Scene.record c (Game.scene g)) g.

(** The event is a frame in which the right trigger goes down. *)
Definition isPress (e : Event) (g : Game.t) : bool :=
  match e with
  | RenderLoop f =>
      match componentOf f g "xr-standard-trigger" with
      | Some c => pressEdge c
      | None => false
      end
  | _ => false
  end.

(** ** What holds in every state of a session *)

Record Inv (g : Game.t) : Prop := mkInv {
  inv_ready : ready g;
  inv_ground : AbstractMesh.isPickable (mesh g Ground) = false;
  inv_skybox : AbstractMesh.isPickable (mesh g Skybox) = false;
  inv_laser : AbstractMesh.isPickable (mesh g LaserPointer) = false;
  inv_highlight : forall m, highlighted g m = true <-> Game.selectedObject g = Some m;
  inv_pickable : forall m, Game.selectedObject g = Some m ->
                           AbstractMesh.isPickable (mesh g m) = true
}.

(** ** A sample session

    One right-hand controller, a trigger and (optionally) a thumbstick;
    the ray crosses the ground at 1, cube 3 at 2.5 and cube 4 at 2. *)
Module Session.
Definition right : string := "controller-0-tracked-pointer-right".

Definition button (pressed changed : bool) : WebXRControllerComponent.t :=
  WebXRControllerComponent.mk pressed
    (if changed then Some (WebXRControllerComponent.mkValues pressed (negb pressed))
     else None)
    (WebXRControllerComponent.mkAxes 0 0).

Definition stick (y : float) : WebXRControllerComponent.t :=
  WebXRControllerComponent.mk false None (WebXRControllerComponent.mkAxes 0 y).

Definition controller (trigger : WebXRControllerComponent.t)
  (thumbstick : option WebXRControllerComponent.t) : WebXRAbstractMotionController.t :=
  WebXRAbstractMotionController.mk
    (<["xr-standard-trigger" := trigger]>
       match thumbstick with
       | Some t => {["xr-standard-thumbstick" := t]}
       | None => ∅
       end).

Definition crossings : list (MeshRef * float) :=
  [(Ground, 1); (Cube 3, 2.5); (Cube 4, 2)].

Definition frame (mc : WebXRAbstractMotionController.t)
  (crossed : list (MeshRef * float)) : Frame.t :=
  Frame.mk (fun _ => Some mc)
           (fun _ => Vector3.mk 0 1.5 0) (fun _ => Vector3.mk 0 0 1)
           16 (fun _ => crossed).

(** Frames: the trigger goes down, the trigger comes up, nothing changes. *)
Definition press (y : float) (crossed : list (MeshRef * float)) : Frame.t :=
  frame (controller (button true true) (Some (stick y))) crossed.
Definition letGo : Frame.t :=
  frame (controller (button false true) (Some (stick 0))) [].
Definition idle (y : float) : Frame.t :=
  frame (controller (button true false) (Some (stick y))) [].
(** A controller that has a trigger and no thumbstick. *)
Definition pressNoStick : Frame.t :=
  frame (controller (button true true) None) crossings.

Definition connected : Game.t := exec [ControllerAdded right].
(** The trigger went down on cube 4, or on nothing. *)
Definition holding : Game.t :=
  exec [ControllerAdded right; RenderLoop (press 0 crossings)].
Definition missed : Game.t :=
  exec [ControllerAdded right; RenderLoop (press 0 [])].
End Session.

(** ** Reading a session and its call log *)

(** The input source the laser pointer hangs on after the callbacks [es]:
    the right-hand controller added last, unless a right-hand controller
    was removed since. *)
Definition attachedTo (es : list Event) : option string :=
  fold_left
    (fun a e =>
       match e with
       | ControllerAdded uid => if endsWith uid "right" then Some uid else a
       | ControllerRemoved uid => if endsWith uid "right" then None else a
       | RenderLoop _ => a
       end) es None.

Definition isPulse (c : Call.t) : bool :=
  match c with Call.pulse _ _ _ => true | _ => false end.
Definition isSetParent (c : Call.t) : bool :=
  match c with Call.setParent _ _ => true | _ => false end.
Definition isTranslate (c : Call.t) : bool :=
  match c with Call.translate _ _ _ _ => true | _ => false end.

(** How many of the recorded calls satisfy [p]. *)
Definition count (p : Call.t -> bool) (l : list Call.t) : nat :=
  List.length (List.filter p l).

(** A statement completed. *)
Definition completed {A} (r : Result A) : bool :=
  match r with Ok _ _ => true | TypeError _ => false end.

(** ** The first version of the class (src/index.ts)

    [createScene] and the controller-added callback are the same code;
    the controller-removed callback has no test on the identifier, the
    trigger handler sends no haptic pulse and paints the pointer yellow
    on release, and there is no thumbstick handler. *)
Module Lecture12.
Definition onControllerRemoved (uniqueId : string) : M unit :=
  g ← get;
  lp ← deref (Game.laserPointer g);
  assign_mesh lp (AbstractMesh.set_parent None);;
  assign_mesh lp (AbstractMesh.set_visibility 0).

Definition selectHit (pickInfo : option PickingInfo.t) : M unit :=
  if default false (PickingInfo.hit <$> pickInfo) then
    info ← deref pickInfo;
    modify (Game.set_selectedObject (PickingInfo.pickedMesh info));;
    g ← get;
    so ← deref (Game.selectedObject g);
    enableEdgesRendering so;;
    st ← deref (Game.selectionTransform g);
    assign_transform st
      (TransformNode.set_position (Vector3.mk 0 0 (PickingInfo.distance info)));;
    setParent so (Some (OfTransform st))
  else skip.

Definition release : M unit :=
  g ← get;
  match Game.selectedObject g with
  | Some so => setParent so None
  | None => skip
  end.

Definition onRightTrigger (f : Frame.t) (component : option WebXRControllerComponent.t) : M unit :=
  if isDefined (component ≫= WebXRControllerComponent.changes_pressed) then
    if default false (WebXRControllerComponent.pressed <$> component) then
      g ← get;
      lp ← deref (Game.laserPointer g);
      assign_mesh lp (AbstractMesh.set_color Color3.Green);;
      rc ← deref (Game.rightController g);
      let ray := Ray.mk (Frame.position f (Pointer rc)) (Frame.forward f (Pointer rc)) 20 in
      pickInfo ← pickWithRay f ray;
      deselect;;
      selectHit pickInfo
    else
      g ← get;
      lp ← deref (Game.laserPointer g);
      assign_mesh lp (AbstractMesh.set_color Color3.Yellow);;
      release
  else skip.

Definition processControllerInput (f : Frame.t) : M unit :=
  trigger ← rightComponent f "xr-standard-trigger";
  onRightTrigger f trigger.

Definition update (f : Frame.t) : M unit := processControllerInput f.

Definition dispatch (e : Event) : M unit :=
  match e with
  | ControllerAdded uid => onControllerAdded uid
  | ControllerRemoved uid => onControllerRemoved uid
  | RenderLoop f => update f
  end.

Definition exec (es : list Event) : Game.t :=
  fold_left (fun g e => final (dispatch e g)) es (final (createScene constructor)).
End Lecture12.

(** Two states that differ at most in the colour of the laser pointer and
    in the haptic pulses recorded. *)
Definition agree (g1 g2 : Game.t) : Prop :=
  Game.leftController g1 = Game.leftController g2
  /\ Game.rightController g1 = Game.rightController g2
  /\ Game.selectedObject g1 = Game.selectedObject g2
  /\ Game.selectionTransform g1 = Game.selectionTransform g2
  /\ Game.laserPointer g1 = Game.laserPointer g2
  /\ (forall m,
        AbstractMesh.parent (mesh g1 m) = AbstractMesh.parent (mesh g2 m)
        /\ AbstractMesh.isPickable (mesh g1 m) = AbstractMesh.isPickable (mesh g2 m)
        /\ AbstractMesh.visibility (mesh g1 m) = AbstractMesh.visibility (mesh g2 m)
        /\ AbstractMesh.edgesRendering (mesh g1 m) = AbstractMesh.edgesRendering (mesh g2 m)
        /\ AbstractMesh.alpha (mesh g1 m) = AbstractMesh.alpha (mesh g2 m)
        /\ (m <> LaserPointer ->
            AbstractMesh.color (mesh g1 m) = AbstractMesh.color (mesh g2 m)))
  /\ (forall t, Scene.transforms (Game.scene g1) t = Scene.transforms (Game.scene g2) t)
  /\ List.filter (fun c => negb (isPulse c)) (calls g1)
     = List.filter (fun c => negb (isPulse c)) (calls g2).

(** A call log in which every [setParent] is followed at once by a pulse
    of intensity 0.2 and 50 ms, and no pulse comes otherwise. *)
Inductive Paired : list Call.t -> Prop :=
| Paired_nil : Paired []
| Paired_reparent (m : MeshRef) (node : option NodeRef) (rc : string) (rest : list Call.t) :
    Paired rest ->
    Paired (Call.setParent m node :: Call.pulse rc 0.2 50 :: rest)
| Paired_other (c : Call.t) (rest : list Call.t) :
    isPulse c = false -> isSetParent c = false ->
    Paired rest ->
    Paired (c :: rest).


(** Signs of binary64 values: a zero or a positive number or +infinity;
    a zero, a negative number, -infinity or NaN. *)
Definition atLeastZero (x : spec_float) : bool :=
  match x with
  | S754_zero _ | S754_finite false _ _ | S754_infinity false => true
  | _ => false
  end.
Definition notAboveZero (x : spec_float) : bool :=
  match x with
  | S754_zero _ | S754_nan | S754_finite true _ _ | S754_infinity true => true
  | _ => false
  end.

(** The identifier of the controller added last on one side (the right
    side: identifiers ending in "right"), removals notwithstanding. *)
Definition lastAdded (rightSide : bool) (es : list Event) : option string :=
  fold_left
    (fun a e =>
       match e with
       | ControllerAdded uid =>
           if Bool.eqb (endsWith uid "right") rightSide then Some uid else a
       | _ => a
       end) es None.

(** * Properties *)

(** ** Running statements *)

Ltac unfold_M :=
  cbv [mbind M_bind mret M_ret get modify skip deref modify_scene
       assign_mesh assign_transform disableEdgesRendering enableEdgesRendering
       setParent translate pickWithRay rightPulse rightComponent
       deselect selectHit release].

Ltac open_game g :=
  let gms := fresh "gms" in let gts := fresh "gts" in let gcs := fresh "gcs" in
  let glc := fresh "glc" in let grc := fresh "grc" in let gso := fresh "gso" in
  let gst := fresh "gst" in let glp := fresh "glp" in
  destruct g as [[gms gts gcs] glc grc gso gst glp];
  unfold ready, highlighted, parentOf, anchor, laserColor, calls,
    deselectCalls, componentOf, rightMotionController in *;
  unfold mesh in *;
  cbn [Game.scene Game.leftController Game.rightController Game.selectedObject
       Game.selectionTransform Game.laserPointer
       Scene.meshes Scene.transforms Scene.calls] in *.

(** ** The store *)

Section Alter.
Context (h : AbstractMesh.t -> AbstractMesh.t) (ms : MeshRef -> AbstractMesh.t)
        (m x : MeshRef).

Lemma edgesRendering_alter :
  (forall a, AbstractMesh.edgesRendering (h a) = AbstractMesh.edgesRendering a) ->
  AbstractMesh.edgesRendering (alter h m ms x) = AbstractMesh.edgesRendering (ms x).
Proof.
  intros H. destruct (decide (m = x)) as [->|Hne].
  - now rewrite fn_lookup_alter.
  - now rewrite fn_lookup_alter_ne.
Qed.

Lemma isPickable_alter :
  (forall a, AbstractMesh.isPickable (h a) = AbstractMesh.isPickable a) ->
  AbstractMesh.isPickable (alter h m ms x) = AbstractMesh.isPickable (ms x).
Proof.
  intros H. destruct (decide (m = x)) as [->|Hne].
  - now rewrite fn_lookup_alter.
  - now rewrite fn_lookup_alter_ne.
Qed.

Lemma parent_alter :
  (forall a, AbstractMesh.parent (h a) = AbstractMesh.parent a) ->
  AbstractMesh.parent (alter h m ms x) = AbstractMesh.parent (ms x).
Proof.
  intros H. destruct (decide (m = x)) as [->|Hne].
  - now rewrite fn_lookup_alter.
  - now rewrite fn_lookup_alter_ne.
Qed.

Lemma color_alter :
  (forall a, AbstractMesh.color (h a) = AbstractMesh.color a) ->
  AbstractMesh.color (alter h m ms x) = AbstractMesh.color (ms x).
Proof.
  intros H. destruct (decide (m = x)) as [->|Hne].
  - now rewrite fn_lookup_alter.
  - now rewrite fn_lookup_alter_ne.
Qed.
End Alter.

(** Rewrites a member read through updates of other members. *)
Ltac through_alter :=
  repeat first
    [ rewrite edgesRendering_alter by (intros []; reflexivity)
    | rewrite isPickable_alter by (intros []; reflexivity)
    | rewrite parent_alter by (intros []; reflexivity)
    | rewrite color_alter by (intros []; reflexivity) ].

(** Decides whether an updated mesh is the one being read. *)
Ltac split_alter :=
  repeat first
    [ rewrite fn_lookup_alter
    | match goal with
      | |- context [alter ?h ?m ?ms ?x] =>
          destruct (decide (m = x)) as [?|?];
          [ subst; rewrite !(fn_lookup_alter h)
          | rewrite !(fn_lookup_alter_ne h ms m x) by assumption ]
      end ].

(** The ray caster reads nothing of a mesh but [isPickable]. *)
Lemma pick_ext (s s' : Scene.t) (l : list (MeshRef * float)) :
  (forall m, AbstractMesh.isPickable (Scene.meshes s' m)
             = AbstractMesh.isPickable (Scene.meshes s m)) ->
  pick s' l = pick s l.
Proof.
  intros H. unfold pick.
  replace (List.filter (fun h => AbstractMesh.isPickable (Scene.meshes s' h.1)) l)
    with (List.filter (fun h => AbstractMesh.isPickable (Scene.meshes s h.1)) l);
    [reflexivity|].
  apply List.filter_ext. intros a. now rewrite H.
Qed.

Lemma pick_set_color (s : Scene.t) (lp : MeshRef) (c : Color3.t)
  (l : list (MeshRef * float)) :
  pick (Scene.update_mesh lp (AbstractMesh.set_color c) s) l = pick s l.
Proof.
  apply pick_ext. intros m. cbn. now rewrite isPickable_alter by (intros []; reflexivity).
Qed.

Lemma nearer_cases (a b : MeshRef * float) : nearer a b = a \/ nearer a b = b.
Proof. unfold nearer. destruct (_ <? _); auto. Qed.

Lemma fold_nearer_In (rest : list (MeshRef * float)) (h : MeshRef * float) :
  In (fold_left nearer rest h) (h :: rest).
Proof.
  revert h. induction rest as [|a rest IH]; intros h; cbn [fold_left].
  - now left.
  - destruct (IH (nearer h a)) as [H|H].
    + destruct (nearer_cases h a) as [E|E]; rewrite E in *.
      * now left.
      * right. now left.
    + right. now right.
Qed.

(** A reported hit is one of the crossings, and its mesh is pickable. *)
Lemma pick_hit (s : Scene.t) (l : list (MeshRef * float)) :
  PickingInfo.hit (pick s l) = true ->
  exists m d, pick s l = PickingInfo.mk true (Some m) d
              /\ In (m, d) l
              /\ AbstractMesh.isPickable (Scene.meshes s m) = true.
Proof.
  unfold pick.
  destruct (List.filter _ l) as [|h rest] eqn:E; [discriminate|].
  pose proof (fold_nearer_In rest h) as Hin. rewrite <- E in Hin.
  destruct (fold_left nearer rest h) as [m d]. intros _.
  apply List.filter_In in Hin. destruct Hin as [Hin Hp].
  exists m, d. auto.
Qed.

(** Without a pickable crossing there is no hit. *)
Lemma pick_no_hit (s : Scene.t) (l : list (MeshRef * float)) :
  (forall m d, In (m, d) l -> AbstractMesh.isPickable (Scene.meshes s m) = false) ->
  pick s l = PickingInfo.empty.
Proof.
  intros H.
  destruct (PickingInfo.hit (pick s l)) eqn:E.
  - destruct (pick_hit s l E) as (m & d & _ & Hin & Hp).
    rewrite (H m d Hin) in Hp. discriminate.
  - unfold pick in *. destruct (List.filter _ l); [reflexivity|].
    destruct (fold_left _ _ _). discriminate.
Qed.

(** ** Binary64 arithmetic *)

Section Binary64.

Lemma is_finite_cases (x : float) :
  is_finite x = true ->
  (exists s, Prim2SF x = S754_zero s) \/ (exists s m e, Prim2SF x = S754_finite s m e).
Proof.
  unfold is_finite, is_nan, is_infinity.
  rewrite !FloatAxioms.eqb_spec, abs_spec.
  destruct (Prim2SF x) as [s|s| |s m e]; intros H.
  - left; eauto.
  - exfalso. destruct s; cbn in H; discriminate.
  - exfalso. cbn in H. discriminate.
  - right; eauto.
Qed.

Lemma is_zero_cases (x : float) :
  is_zero x = true <-> exists s, Prim2SF x = S754_zero s.
Proof.
  unfold is_zero. rewrite FloatAxioms.eqb_spec.
  change (Prim2SF 0) with (S754_zero false).
  destruct (Prim2SF x) as [s|s| |s m e].
  - split; [eauto|]. intros _. now destruct s.
  - split; [now destruct s|]. intros [? H]. discriminate.
  - split; [discriminate|]. intros [? H]. discriminate.
  - split; [now destruct s|]. intros [? H]. discriminate.
Qed.

(** Rounding does not look at the sign. *)
Lemma binary_round_aux_negb (s : bool) (m e : Z) (l : location) :
  binary_round_aux prec emax (negb s) m e l
  = SFopp (binary_round_aux prec emax s m e l).
Proof.
  unfold binary_round_aux.
  destruct (shr_fexp prec emax m e l) as [mrs' e'].
  destruct (shr_fexp prec emax _ e' loc_Exact) as [mrs'' e''].
  destruct (shr_m mrs''); cbn; try reflexivity.
  destruct (e'' <=? _)%Z; reflexivity.
Qed.

Lemma SFmul_opp_l (a b : spec_float) :
  SFmul prec emax (SFopp a) b = SFopp (SFmul prec emax a b).
Proof.
  destruct a as [sa|sa| |sa ma ea], b as [sb|sb| |sb mb eb];
    cbn [SFmul SFopp]; try reflexivity; try (destruct sa, sb; reflexivity).
  rewrite <- binary_round_aux_negb. destruct sa, sb; reflexivity.
Qed.

Lemma SFmul_comm (a b : spec_float) : SFmul prec emax a b = SFmul prec emax b a.
Proof.
  destruct a as [sa|sa| |sa ma ea], b as [sb|sb| |sb mb eb];
    cbn [SFmul]; rewrite ?(xorb_comm sa sb); try reflexivity.
  now rewrite Pos.mul_comm, Z.add_comm.
Qed.

Lemma shr_fexp_canonical (m : positive) (e : Z) :
  fexp prec emax (Z.pos (digits2_pos m) + e) = e ->
  shr_fexp prec emax (Z.pos m) e loc_Exact
  = ({| shr_m := Z.pos m; shr_r := false; shr_s := false |}, e).
Proof.
  intros Hc. unfold shr_fexp. cbn [Zdigits2]. rewrite Hc, Z.sub_diag. reflexivity.
Qed.

(** The mantissa of 1 is 2^52: the product with it shifts back exactly. *)
Lemma shr_fexp_scaled (m : positive) (e : Z) :
  fexp prec emax (Z.pos (digits2_pos m) + e) = e ->
  shr_fexp prec emax (Z.pos (4503599627370496 * m)) (-52 + e) loc_Exact
  = ({| shr_m := Z.pos m; shr_r := false; shr_s := false |}, e).
Proof.
  intros Hc. unfold shr_fexp.
  cbv [Pos.mul]. cbn [Zdigits2 digits2_pos].
  rewrite !Pos2Z.inj_succ.
  match goal with
  | |- context [fexp prec emax ?a] =>
      replace a with (Z.pos (digits2_pos m) + e)%Z by lia
  end.
  rewrite Hc.
  replace (e - (-52 + e))%Z with 52%Z by lia.
  cbn [shr shr_record_of_loc iter_pos shr_1 orb].
  f_equal. lia.
Qed.

Lemma SFmul_one_l (x : spec_float) :
  valid_binary x = true -> SFmul prec emax (Prim2SF 1) x = x.
Proof.
  intros Hv.
  change (Prim2SF 1) with (S754_finite false 4503599627370496 (-52)).
  destruct x as [s|s| |s m e]; try reflexivity.
  cbn [SFmul xorb].
  cbn [valid_binary] in Hv. unfold bounded, canonical_mantissa in Hv.
  apply andb_prop in Hv. destruct Hv as [Hc Hb]. apply Z.eqb_eq in Hc.
  unfold binary_round_aux.
  rewrite (shr_fexp_scaled m e Hc).
  cbn [shr_m loc_of_shr_record round_nearest_even].
  rewrite (shr_fexp_canonical m e Hc).
  cbn [shr_m]. rewrite Hb. reflexivity.
Qed.

Lemma mul_opp_l (a b : float) : (- a) * b = - (a * b).
Proof.
  apply Prim2SF_inj. rewrite mul_spec, !opp_spec, mul_spec. apply SFmul_opp_l.
Qed.

Lemma mul_comm (a b : float) : a * b = b * a.
Proof. apply Prim2SF_inj. rewrite !mul_spec. apply SFmul_comm. Qed.

Lemma mul_one_l (x : float) : 1 * x = x.
Proof.
  apply Prim2SF_inj. rewrite mul_spec. apply SFmul_one_l, Prim2SF_valid.
Qed.

(** A zero times a finite number is a zero. *)
Lemma mul_zero_finite (z x : float) :
  is_zero z = true -> is_finite x = true -> is_zero (z * x) = true.
Proof.
  intros Hz Hx. apply is_zero_cases in Hz. destruct Hz as [sz Hz].
  apply is_zero_cases. rewrite mul_spec, Hz. unfold SF64mul.
  destruct (is_finite_cases x Hx) as [[s ->]|(s & m & e & ->)]; cbn; eauto.
Qed.

Lemma opp_zero (z : float) : is_zero z = true -> is_zero (- z) = true.
Proof.
  intros Hz. apply is_zero_cases in Hz. destruct Hz as [sz Hz].
  apply is_zero_cases. rewrite opp_spec, Hz. cbn. eauto.
Qed.

End Binary64.

(** The reel distance for a centred thumbstick, for a thumbstick pushed
    fully forward, and in general. *)
Lemma moveDistance_zero (a dt : float) :
  is_zero a = true -> is_finite (dt / 1000) = true ->
  is_zero (moveDistance a dt) = true.
Proof.
  intros Ha Hdt. unfold moveDistance.
  apply mul_zero_finite; [|reflexivity].
  apply mul_zero_finite; [|exact Hdt].
  now apply opp_zero.
Qed.

(** Scaling a finite direction by a zero distance moves nowhere. *)
Lemma scale_zero (axis : Vector3.t) (distance : float) :
  Vector3.isFinite axis = true -> is_zero distance = true ->
  Vector3.isZero (Vector3.scale axis distance) = true.
Proof.
  unfold Vector3.isFinite, Vector3.isZero, Vector3.scale. cbn.
  rewrite !andb_true_iff. intros [[Hx Hy] Hz] Hd.
  rewrite !(mul_comm _ distance).
  repeat split; now apply mul_zero_finite.
Qed.

Lemma moveDistance_one (dt : float) : moveDistance 1 dt = - (3 * (dt / 1000)).
Proof.
  unfold moveDistance.
  now rewrite mul_opp_l, mul_one_l, mul_opp_l, (mul_comm (dt / 1000) 3).
Qed.

(** ** The invariant is kept *)

Lemma Inv_createScene : Inv (final (createScene constructor)).
Proof.
  split; try (vm_compute; tauto).
  - intros m. unfold highlighted, mesh, createScene, constructor. unfold_M. cbn.
    through_alter. cbn. split; intros; discriminate.
  - intros m. cbn. discriminate.
Qed.

(** Closes the invariant for a state computed from one that has it. *)
Ltac close_Inv Hh Hp :=
  split; unfold ready, mesh, highlighted in *; cbn in *; through_alter; auto;
  match goal with
  | |- forall m, _ <-> _ =>
      let x := fresh "x" in
      intros x; specialize (Hh x); through_alter; split_alter; cbn;
      intuition congruence
  | |- forall m, _ -> _ =>
      let x := fresh "x" in let Hx := fresh "Hx" in
      intros x Hx; through_alter;
      first [ discriminate | apply Hp; congruence | congruence ]
  end.

Lemma Inv_onRightTrigger (f : Frame.t) (c : option WebXRControllerComponent.t) (g : Game.t) :
  Inv g -> Inv (final (onRightTrigger f c g)).
Proof.
  intros [[Hlp Hst] Hg Hs Hl Hh Hp].
  unfold onRightTrigger.
  destruct (isDefined _); [|now split].
  destruct (default false _).
  - open_game g. subst. unfold_M. cbn.
    destruct grc as [rc|]; cbn; [|close_Inv Hh Hp].
    rewrite pick_set_color.
    destruct (PickingInfo.hit (pick _ _)) eqn:Ehit.
    + destruct (pick_hit _ _ Ehit) as (m & d & -> & _ & Hm). cbn in Hm.
      destruct gso as [p|]; cbn;
        destruct (isDefined (Frame.motionController f rc)); cbn;
        close_Inv Hh Hp.
    + destruct gso as [p|]; cbn; close_Inv Hh Hp.
  - open_game g. subst. unfold_M. cbn.
    destruct gso as [p|], grc as [rc|]; cbn;
      try destruct (isDefined (Frame.motionController f rc)); cbn;
      close_Inv Hh Hp.
Qed.

Lemma Inv_onRightThumbstick (f : Frame.t) (c : option WebXRControllerComponent.t) (g : Game.t) :
  Inv g -> Inv (final (onRightThumbstick f c g)).
Proof.
  intros [[Hlp Hst] Hg Hs Hl Hh Hp].
  unfold onRightThumbstick.
  open_game g. subst. unfold_M. cbn.
  destruct gso as [p|]; cbn; [|close_Inv Hh Hp].
  destruct (isDefined _); cbn; [|close_Inv Hh Hp].
  destruct c as [c|]; cbn; close_Inv Hh Hp.
Qed.

(** One frame: the trigger handler, then the thumbstick handler on the
    state it left. *)
Lemma processControllerInput_eq (f : Frame.t) (g : Game.t) :
  processControllerInput f g
  = match onRightTrigger f (componentOf f g "xr-standard-trigger") g with
    | Ok _ g' => onRightThumbstick f (componentOf f g' "xr-standard-thumbstick") g'
    | TypeError g' => TypeError g'
    end.
Proof. reflexivity. Qed.

Lemma Inv_dispatch (e : Event) (g : Game.t) : Inv g -> Inv (final (dispatch e g)).
Proof.
  intros HI. destruct e as [uid|uid|f]; cbn [dispatch].
  - destruct HI as [[Hlp Hst] Hg Hs Hl Hh Hp].
    unfold onControllerAdded. destruct (endsWith uid "right");
      open_game g; subst; unfold_M; cbn; close_Inv Hh Hp.
  - destruct HI as [[Hlp Hst] Hg Hs Hl Hh Hp].
    unfold onControllerRemoved. destruct (endsWith uid "right");
      open_game g; subst; unfold_M; cbn; close_Inv Hh Hp.
  - unfold update. rewrite processControllerInput_eq.
    pose proof (Inv_onRightTrigger f (componentOf f g "xr-standard-trigger") g HI) as HT.
    destruct (onRightTrigger f _ g) as [[] g'|g']; cbn in HT; [|exact HT].
    now apply Inv_onRightThumbstick.
Qed.

Lemma Inv_fold (es : list Event) (g : Game.t) :
  Inv g -> Inv (fold_left (fun g e => final (dispatch e g)) es g).
Proof.
  revert g. induction es as [|e es IH]; intros g HI; cbn; [exact HI|].
  apply IH. now apply Inv_dispatch.
Qed.

Lemma Inv_exec (es : list Event) : Inv (exec es).
Proof. apply Inv_fold, Inv_createScene. Qed.

(** Enters the branch of [onRightTrigger] that the edge [Hedge] takes. *)
Ltac enter_trigger Hedge :=
  let Hch := fresh "Hch" in
  let Hpr := fresh "Hpr" in
  unfold pressEdge, releaseEdge in Hedge;
  apply andb_prop in Hedge as [Hch Hpr];
  rewrite ?negb_true_iff in Hpr;
  unfold onRightTrigger; cbn [mbind option_bind]; rewrite Hch;
  cbn [fmap option_fmap option_map default]; rewrite Hpr;
  unfold_M; cbn.

Lemma Blue_neq_Green : Color3.Blue <> Color3.Green.
Proof.
  intros H. apply (f_equal (fun c => Color3.b c =? 0)) in H.
  vm_compute in H. discriminate.
Qed.

Lemma Blue_neq_Yellow : Color3.Blue <> Color3.Yellow.
Proof.
  intros H. apply (f_equal (fun c => Color3.b c =? 0)) in H.
  vm_compute in H. discriminate.
Qed.

(** ** The trigger handler *)

(** A press that hits [m]: what [onRightTrigger] leaves. *)
Lemma press_hit_run
  (f : Frame.t) (g : Game.t) (rc : string)
  (mc : WebXRAbstractMotionController.t) (c : WebXRControllerComponent.t)
  (m : MeshRef) (d : float) :
  ready g ->
  Game.rightController g = Some rc ->
  Frame.motionController f rc = Some mc ->
  WebXRAbstractMotionController.getComponent mc "xr-standard-trigger" = Some c ->
  pressEdge c = true ->
  pick (Game.scene g) (Frame.intersections f (pointerRay f rc))
    = PickingInfo.mk true (Some m) d ->
  exists g',
    onRightTrigger f (componentOf f g "xr-standard-trigger") g = Ok tt g'
    /\ (ready g' /\ Game.rightController g' = Some rc)
    /\ Game.selectedObject g' = Some m
    /\ highlighted g' m = true
    /\ TransformNode.position (anchor g') = Vector3.mk 0 0 d
    /\ parentOf g' m = Some (OfTransform SelectionTransform)
    /\ calls g' = calls g ++ deselectCalls g
                  ++ [Call.enableEdgesRendering m;
                      Call.setParent m (Some (OfTransform SelectionTransform));
                      Call.pulse rc 0.2 50].
Proof.
  intros [Hlp Hst] Hrc Hmc Hc Hedge Hpick.
  open_game g. subst.
  rewrite Hmc, Hc. enter_trigger Hedge.
  unfold pointerRay in Hpick.
  rewrite !pick_set_color, Hpick. cbn.
  destruct gso as [p|]; cbn; rewrite Hmc; cbn;
    (eexists; split; [reflexivity|]);
    unfold ready, mesh, highlighted, parentOf, anchor, calls; cbn;
    rewrite ?fn_lookup_alter; cbn; rewrite <- ?app_assoc; cbn;
    repeat split; reflexivity.
Qed.

(** A held object and a thumbstick: what [onRightThumbstick] leaves. *)
Lemma thumbstick_run
  (f : Frame.t) (g : Game.t) (m : MeshRef) (c : WebXRControllerComponent.t) :
  ready g ->
  Game.selectedObject g = Some m ->
  isDefined (parentOf g m) = true ->
  onRightThumbstick f (Some c) g
  = Ok tt (recorded
             (Call.translate m (Frame.forward f LaserPointer)
                (moveDistance
                   (WebXRControllerComponent.y (WebXRControllerComponent.axes c))
                   (Frame.getDeltaTime f)) WORLD) g).
Proof.
  intros [Hlp Hst] Hso Hpar.
  unfold onRightThumbstick, recorded. open_game g. subst.
  unfold_M. cbn. rewrite Hpar. reflexivity.
Qed.

(** C2: on a trigger-press edge whose ray cast (from the controller's
    pointer position, along its forward direction, length 20) reports a
    hit with mesh [m] at distance [d], [onRightTrigger] completes and
    afterwards [m] is the selected object, its edge highlight is on, the
    selection transform sits at (0, 0, d), [m] is parented to the
    selection transform by [setParent], and a haptic pulse was sent. *)
Theorem trigger_press_selects_hit
  (f : Frame.t) (g : Game.t) (rc : string)
  (mc : WebXRAbstractMotionController.t) (c : WebXRControllerComponent.t)
  (m : MeshRef) (d : float) :
  ready g ->
  Game.rightController g = Some rc ->
  Frame.motionController f rc = Some mc ->
  WebXRAbstractMotionController.getComponent mc "xr-standard-trigger" = Some c ->
  pressEdge c = true ->
  pick (Game.scene g) (Frame.intersections f (pointerRay f rc))
    = PickingInfo.mk true (Some m) d ->
  exists g',
    onRightTrigger f (componentOf f g "xr-standard-trigger") g = Ok tt g'
    /\ Game.selectedObject g' = Some m
    /\ highlighted g' m = true
    /\ TransformNode.position (anchor g') = Vector3.mk 0 0 d
    /\ parentOf g' m = Some (OfTransform SelectionTransform)
    /\ calls g' = calls g ++ deselectCalls g
                  ++ [Call.enableEdgesRendering m;
                      Call.setParent m (Some (OfTransform SelectionTransform));
                      Call.pulse rc 0.2 50].
Proof.
  intros Hready Hrc Hmc Hc Hedge Hpick.
  destruct (press_hit_run f g rc mc c m d Hready Hrc Hmc Hc Hedge Hpick)
    as (g' & Hrun & _ & Hrest).
  exists g'. split; assumption.
Qed.

Lemma trigger_press_selects_hit_witness :
  exists g',
    onRightTrigger (Session.press 0 Session.crossings)
      (componentOf (Session.press 0 Session.crossings) Session.connected
         "xr-standard-trigger") Session.connected = Ok tt g'
    /\ Game.selectedObject g' = Some (Cube 4)
    /\ highlighted g' (Cube 4) = true
    /\ TransformNode.position (anchor g') = Vector3.mk 0 0 2
    /\ parentOf g' (Cube 4) = Some (OfTransform SelectionTransform)
    /\ calls g' = calls Session.connected ++ deselectCalls Session.connected
                  ++ [Call.enableEdgesRendering (Cube 4);
                      Call.setParent (Cube 4) (Some (OfTransform SelectionTransform));
                      Call.pulse Session.right 0.2 50].
Proof.
  apply (trigger_press_selects_hit (Session.press 0 Session.crossings)
           Session.connected Session.right
           (Session.controller (Session.button true true) (Some (Session.stick 0)))
           (Session.button true true) (Cube 4) 2).
  - split; reflexivity.
  - reflexivity.
  - reflexivity.
  - reflexivity.
  - reflexivity.
  - vm_compute. reflexivity.
Defined.

(** C4: on a trigger-release edge while an object is held (selected and
    parented to the selection transform), [onRightTrigger] detaches it
    with [setParent(null)], the engine call that keeps the world
    transform, and then sends a haptic pulse. *)
Theorem trigger_release_detaches
  (f : Frame.t) (g : Game.t) (rc : string)
  (mc : WebXRAbstractMotionController.t) (c : WebXRControllerComponent.t)
  (p : MeshRef) :
  ready g ->
  Game.rightController g = Some rc ->
  Frame.motionController f rc = Some mc ->
  WebXRAbstractMotionController.getComponent mc "xr-standard-trigger" = Some c ->
  releaseEdge c = true ->
  Game.selectedObject g = Some p ->
  parentOf g p = Some (OfTransform SelectionTransform) ->
  exists g',
    onRightTrigger f (componentOf f g "xr-standard-trigger") g = Ok tt g'
    /\ parentOf g' p = None
    /\ calls g' = calls g ++ [Call.setParent p None; Call.pulse rc 0.2 50].
Proof.
  intros [Hlp Hst] Hrc Hmc Hc Hedge Hso Hpar.
  open_game g. subst.
  rewrite Hmc, Hc. enter_trigger Hedge. rewrite Hmc. cbn.
  eexists; split; [reflexivity|].
  unfold parentOf, mesh, calls; cbn.
  rewrite fn_lookup_alter, <- app_assoc. split; reflexivity.
Qed.

Lemma trigger_release_detaches_witness :
  exists g',
    onRightTrigger Session.letGo
      (componentOf Session.letGo Session.holding "xr-standard-trigger")
      Session.holding = Ok tt g'
    /\ parentOf g' (Cube 4) = None
    /\ calls g' = calls Session.holding
                  ++ [Call.setParent (Cube 4) None; Call.pulse Session.right 0.2 50].
Proof.
  apply (trigger_release_detaches Session.letGo Session.holding Session.right
           (Session.controller (Session.button false true) (Some (Session.stick 0)))
           (Session.button false true) (Cube 4)).
  - split; reflexivity.
  - reflexivity.
  - reflexivity.
  - reflexivity.
  - reflexivity.
  - reflexivity.
  - reflexivity.
Defined.

(** C6, as the claim states it, fails: after a press that hit nothing the
    pointer is green and nothing is selected; the release that follows
    writes the pointer's colour, so the state is not unchanged. *)
Lemma release_without_selection_recolors :
  Game.selectedObject Session.missed = None
  /\ componentOf Session.letGo Session.missed "xr-standard-trigger"
     = Some (Session.button false true)
  /\ releaseEdge (Session.button false true) = true
  /\ onRightTrigger Session.letGo (Some (Session.button false true)) Session.missed
     = Ok tt (paintLaser Color3.Blue Session.missed)
  /\ laserColor Session.missed = Color3.Green
  /\ laserColor (paintLaser Color3.Blue Session.missed) = Color3.Blue
  /\ Color3.Blue <> Color3.Green.
Proof.
  repeat split; try reflexivity. apply Blue_neq_Green.
Qed.

(** C6, amended: on a trigger-release edge with no selected object the
    only write is the assignment of the laser pointer's colour; the
    selection, every parent link and highlight, the selection transform
    and the recorded engine calls (so, no haptic pulse) are unchanged. *)
Theorem release_without_selection
  (f : Frame.t) (g : Game.t) (c : WebXRControllerComponent.t) :
  ready g ->
  componentOf f g "xr-standard-trigger" = Some c ->
  releaseEdge c = true ->
  Game.selectedObject g = None ->
  exists g',
    onRightTrigger f (componentOf f g "xr-standard-trigger") g = Ok tt g'
    /\ g' = paintLaser (laserColor g') g
    /\ Game.selectedObject g' = Game.selectedObject g
    /\ (forall m, parentOf g' m = parentOf g m)
    /\ (forall m, highlighted g' m = highlighted g m)
    /\ anchor g' = anchor g
    /\ calls g' = calls g.
Proof.
  intros [Hlp Hst] Hc Hedge Hso. rewrite Hc.
  open_game g. subst.
  enter_trigger Hedge.
  eexists; split; [reflexivity|].
  unfold paintLaser, laserColor, parentOf, highlighted, anchor, calls, mesh; cbn.
  rewrite fn_lookup_alter. cbn.
  repeat split; intros; through_alter; reflexivity.
Qed.

Lemma release_without_selection_witness :
  exists g',
    onRightTrigger Session.letGo
      (componentOf Session.letGo Session.missed "xr-standard-trigger")
      Session.missed = Ok tt g'
    /\ g' = paintLaser (laserColor g') Session.missed
    /\ Game.selectedObject g' = Game.selectedObject Session.missed
    /\ (forall m, parentOf g' m = parentOf Session.missed m)
    /\ (forall m, highlighted g' m = highlighted Session.missed m)
    /\ anchor g' = anchor Session.missed
    /\ calls g' = calls Session.missed.
Proof.
  apply (release_without_selection Session.letGo Session.missed
           (Session.button false true)).
  - split; reflexivity.
  - reflexivity.
  - reflexivity.
  - reflexivity.
Defined.

(** Nothing but a press writes the selection or a highlight. *)
Lemma selection_kept_unless_press (e : Event) (g : Game.t) :
  isPress e g = false ->
  Game.selectedObject (final (dispatch e g)) = Game.selectedObject g
  /\ forall m, highlighted (final (dispatch e g)) m = highlighted g m.
Proof.
  intros Hnp. destruct e as [uid|uid|f]; cbn [dispatch].
  - unfold onControllerAdded. destruct (endsWith uid "right");
      open_game g; unfold_M; cbn; [destruct glp; cbn|];
      split; intros; through_alter; reflexivity.
  - unfold onControllerRemoved. destruct (endsWith uid "right");
      open_game g; unfold_M; cbn; [destruct glp; cbn|];
      split; intros; through_alter; reflexivity.
  - unfold update. rewrite processControllerInput_eq.
    cbn [isPress] in Hnp.
    assert (HT : exists g1,
               (onRightTrigger f (componentOf f g "xr-standard-trigger") g = Ok tt g1
                \/ onRightTrigger f (componentOf f g "xr-standard-trigger") g = TypeError g1)
               /\ Game.selectedObject g1 = Game.selectedObject g
               /\ forall m, highlighted g1 m = highlighted g m).
    { destruct (componentOf f g "xr-standard-trigger") as [c|]; [|eauto].
      unfold onRightTrigger, pressEdge in *. cbn [mbind option_bind].
      destruct (isDefined _); [|eauto].
      cbn [fmap option_fmap option_map default]. cbn [andb] in Hnp. rewrite Hnp.
      open_game g. unfold_M. cbn.
      destruct glp as [lp|]; cbn; [|eauto].
      destruct gso as [p|]; cbn.
      - destruct grc as [rc|]; cbn;
          [destruct (isDefined (Frame.motionController f rc)); cbn|];
          eexists; (split; [left; reflexivity|]);
          split; intros; cbn; through_alter; reflexivity.
      - eexists; split; [left; reflexivity|].
        split; intros; cbn; through_alter; reflexivity. }
    destruct HT as (g1 & Hr & Hs1 & Hh1).
    assert (HS : Game.selectedObject
                   (final (onRightThumbstick f (componentOf f g1 "xr-standard-thumbstick") g1))
                 = Game.selectedObject g1
                 /\ forall m, highlighted
                     (final (onRightThumbstick f (componentOf f g1 "xr-standard-thumbstick") g1)) m
                   = highlighted g1 m).
    { generalize (componentOf f g1 "xr-standard-thumbstick"). intros t.
      unfold onRightThumbstick. clear. open_game g1. unfold_M. cbn.
      destruct gso as [p|]; cbn; [|now split].
      destruct (isDefined _); cbn; [|now split].
      destruct t as [t|]; cbn; [|now split].
      destruct glp as [lp|]; cbn; now split. }
    destruct Hr as [Hr|Hr]; rewrite Hr; cbn [final].
    + destruct HS as [HS1 HS2]. split; [congruence|].
      intros m. now rewrite HS2.
    + now split.
Qed.

(** C9: a release keeps the selection: the held object stays the selected
    object and stays highlighted; every event other than a trigger press
    leaves the selection and all highlights as they are; and a press,
    whether it hits or not, first disables the highlight of the selected
    object and clears the selection. *)
Theorem release_keeps_selection :
  (forall f g rc mc c p,
      ready g ->
      Game.rightController g = Some rc ->
      Frame.motionController f rc = Some mc ->
      WebXRAbstractMotionController.getComponent mc "xr-standard-trigger" = Some c ->
      releaseEdge c = true ->
      Game.selectedObject g = Some p ->
      highlighted g p = true ->
      exists g',
        onRightTrigger f (componentOf f g "xr-standard-trigger") g = Ok tt g'
        /\ Game.selectedObject g' = Some p
        /\ highlighted g' p = true)
  /\ (forall e g,
         isPress e g = false ->
         Game.selectedObject (final (dispatch e g)) = Game.selectedObject g
         /\ forall m, highlighted (final (dispatch e g)) m = highlighted g m)
  /\ (forall f g rc mc c p,
         ready g ->
         Game.rightController g = Some rc ->
         Frame.motionController f rc = Some mc ->
         WebXRAbstractMotionController.getComponent mc "xr-standard-trigger" = Some c ->
         pressEdge c = true ->
         Game.selectedObject g = Some p ->
         let info := pick (Game.scene g) (Frame.intersections f (pointerRay f rc)) in
         exists g2 g',
           deselect (paintLaser Color3.Green g) = Ok tt g2
           /\ Game.selectedObject g2 = None
           /\ highlighted g2 p = false
           /\ calls g2 = calls g ++ [Call.disableEdgesRendering p]
           /\ selectHit f (Some info) g2 = Ok tt g'
           /\ onRightTrigger f (componentOf f g "xr-standard-trigger") g = Ok tt g'
           /\ Game.selectedObject g'
              = (if PickingInfo.hit info then PickingInfo.pickedMesh info else None)
           /\ (Game.selectedObject g' <> Some p -> highlighted g' p = false)).
Proof.
  split; [|split].
  - intros f g rc mc c p [Hlp Hst] Hrc Hmc Hc Hedge Hso Hhl.
    open_game g. subst.
    rewrite Hmc, Hc. enter_trigger Hedge. rewrite Hmc. cbn.
    eexists; split; [reflexivity|].
    unfold highlighted, mesh; cbn. through_alter. auto.
  - apply selection_kept_unless_press.
  - intros f g rc mc c p [Hlp Hst] Hrc Hmc Hc Hedge Hso info.
    unfold paintLaser. subst info.
    open_game g. subst.
    rewrite Hmc, Hc. enter_trigger Hedge. unfold pointerRay.
    rewrite !pick_set_color.
    destruct (PickingInfo.hit (pick _ _)) eqn:Ehit.
    + destruct (pick_hit _ _ Ehit) as (m & d & Epick & _ & _).
      rewrite Epick. cbn. rewrite Hmc. cbn.
      eexists; eexists.
      repeat (split; [reflexivity|]).
      unfold highlighted, mesh, calls; cbn.
      rewrite fn_lookup_alter, Hmc. cbn.
      repeat (split; [reflexivity|]).
      intros Hne. cbn in Hne |- *. through_alter.
      split_alter; cbn; first [congruence | reflexivity].
    + cbn. eexists; eexists.
      repeat (split; [reflexivity|]).
      unfold highlighted, mesh, calls; cbn.
      rewrite fn_lookup_alter. cbn.
      repeat (split; [reflexivity|]).
      intros _. cbn. now rewrite fn_lookup_alter.
Qed.

Lemma release_keeps_selection_witness :
  (exists g',
      onRightTrigger Session.letGo
        (componentOf Session.letGo Session.holding "xr-standard-trigger")
        Session.holding = Ok tt g'
      /\ Game.selectedObject g' = Some (Cube 4)
      /\ highlighted g' (Cube 4) = true)
  /\ (Game.selectedObject (final (dispatch (RenderLoop (Session.idle 1)) Session.holding))
      = Game.selectedObject Session.holding)
  /\ (exists g2 g',
         deselect (paintLaser Color3.Green Session.holding) = Ok tt g2
         /\ Game.selectedObject g2 = None
         /\ highlighted g2 (Cube 4) = false
         /\ onRightTrigger (Session.press 0 [])
              (componentOf (Session.press 0 []) Session.holding "xr-standard-trigger")
              Session.holding = Ok tt g'
         /\ Game.selectedObject g' = None).
Proof.
  destruct release_keeps_selection as (HA & HB & HC).
  split; [|split].
  - apply (HA Session.letGo Session.holding Session.right
             (Session.controller (Session.button false true) (Some (Session.stick 0)))
             (Session.button false true) (Cube 4)); try reflexivity.
    split; reflexivity.
  - apply (HB (RenderLoop (Session.idle 1)) Session.holding). reflexivity.
  - destruct (HC (Session.press 0 []) Session.holding Session.right
                (Session.controller (Session.button true true) (Some (Session.stick 0)))
                (Session.button true true) (Cube 4))
      as (g2 & g' & H1 & H2 & H3 & _ & _ & H6 & H7 & _); try reflexivity.
    + split; reflexivity.
    + exists g2, g'. repeat split; assumption.
Defined.

(** ** Sessions *)

(** C1: in every state of every session the highlighted meshes are
    exactly the selected object, so at most one object is selected; and a
    press that hits [m] while [p] is selected runs the deselect block
    first (the highlight of [p] is disabled and the selection cleared)
    and only then stores and highlights [m]. *)
Theorem at_most_one_selected (es : list Event) :
  let g := exec es in
  (forall m, highlighted g m = true <-> Game.selectedObject g = Some m)
  /\ (forall m1 m2, highlighted g m1 = true -> highlighted g m2 = true -> m1 = m2)
  /\ (forall f rc mc c p m d,
         Game.rightController g = Some rc ->
         Frame.motionController f rc = Some mc ->
         WebXRAbstractMotionController.getComponent mc "xr-standard-trigger" = Some c ->
         pressEdge c = true ->
         Game.selectedObject g = Some p ->
         pick (Game.scene g) (Frame.intersections f (pointerRay f rc))
           = PickingInfo.mk true (Some m) d ->
         exists g2 g',
           deselect (paintLaser Color3.Green g) = Ok tt g2
           /\ Game.selectedObject g2 = None
           /\ (forall x, highlighted g2 x = false)
           /\ selectHit f (Some (PickingInfo.mk true (Some m) d)) g2 = Ok tt g'
           /\ onRightTrigger f (componentOf f g "xr-standard-trigger") g = Ok tt g'
           /\ Game.selectedObject g' = Some m
           /\ (forall x, highlighted g' x = true <-> x = m)
           /\ calls g' = calls g
                         ++ [Call.disableEdgesRendering p;
                             Call.enableEdgesRendering m;
                             Call.setParent m (Some (OfTransform SelectionTransform));
                             Call.pulse rc 0.2 50]).
Proof.
  intros g. destruct (Inv_exec es) as [[Hlp Hst] _ _ _ Hh _]. fold g in Hlp, Hst, Hh.
  split; [exact Hh|]. split.
  - intros m1 m2 H1 H2. apply Hh in H1, H2. congruence.
  - clearbody g. intros f rc mc c p m d Hrc Hmc Hc Hedge Hso Hpick.
    unfold paintLaser.
    open_game g. subst.
    rewrite Hmc, Hc. enter_trigger Hedge. unfold pointerRay in Hpick.
    rewrite !pick_set_color, Hpick. cbn. rewrite Hmc. cbn.
    eexists; eexists.
    split; [reflexivity|]. split; [reflexivity|].
    split.
    { intros x. specialize (Hh x). cbn. through_alter. split_alter; cbn;
        try reflexivity.
      all: match goal with |- ?e = false => destruct e; [|reflexivity] end.
      all: destruct Hh as [Hh _]; specialize (Hh eq_refl); congruence. }
    cbn. rewrite ?Hmc. cbn.
    split; [reflexivity|]. split; [reflexivity|]. split; [reflexivity|].
    split.
    { intros x. specialize (Hh x). cbn. through_alter. split_alter; cbn.
      all: try tauto.
      all: try (split; [discriminate|congruence]).
      all: split; [|congruence]; intros Hx; apply Hh in Hx; congruence. }
    unfold calls; cbn. now rewrite <- !app_assoc.
Qed.

Lemma at_most_one_selected_witness :
  (forall m, highlighted Session.holding m = true
             <-> Game.selectedObject Session.holding = Some m)
  /\ (exists g2 g',
         deselect (paintLaser Color3.Green Session.holding) = Ok tt g2
         /\ Game.selectedObject g2 = None
         /\ (forall x, highlighted g2 x = false)
         /\ onRightTrigger (Session.press 0 [(Cube 3, 2.5)])
              (componentOf (Session.press 0 [(Cube 3, 2.5)]) Session.holding
                 "xr-standard-trigger")
              Session.holding = Ok tt g'
         /\ Game.selectedObject g' = Some (Cube 3)
         /\ (forall x, highlighted g' x = true <-> x = Cube 3)
         /\ calls g' = calls Session.holding
                       ++ [Call.disableEdgesRendering (Cube 4);
                           Call.enableEdgesRendering (Cube 3);
                           Call.setParent (Cube 3) (Some (OfTransform SelectionTransform));
                           Call.pulse Session.right 0.2 50]).
Proof.
  destruct (at_most_one_selected
              [ControllerAdded Session.right;
               RenderLoop (Session.press 0 Session.crossings)])
    as (HA & _ & HC).
  split; [exact HA|].
  destruct (HC (Session.press 0 [(Cube 3, 2.5)]) Session.right
              (Session.controller (Session.button true true) (Some (Session.stick 0)))
              (Session.button true true) (Cube 4) (Cube 3) 2.5)
    as (g2 & g' & H1 & H2 & H3 & _ & H5 & H6 & H7 & H8); try reflexivity.
  exists g2, g'. repeat split; try assumption; apply H7.
Defined.

(** C10: in every state of every session the ground, the skybox and the
    laser pointer are not pickable and are not the selected object; and
    when the ray of a trigger press crosses only these three, the ray
    cast reports no hit and the press leaves nothing selected. *)
Theorem unpickable_never_selected (es : list Event) :
  let g := exec es in
  (forall m, m = Ground \/ m = Skybox \/ m = LaserPointer ->
             AbstractMesh.isPickable (mesh g m) = false
             /\ Game.selectedObject g <> Some m)
  /\ (forall f rc mc c,
         Game.rightController g = Some rc ->
         Frame.motionController f rc = Some mc ->
         WebXRAbstractMotionController.getComponent mc "xr-standard-trigger" = Some c ->
         pressEdge c = true ->
         (forall m d, In (m, d) (Frame.intersections f (pointerRay f rc)) ->
                      m = Ground \/ m = Skybox \/ m = LaserPointer) ->
         pick (Game.scene g) (Frame.intersections f (pointerRay f rc))
         = PickingInfo.empty
         /\ exists g',
              onRightTrigger f (componentOf f g "xr-standard-trigger") g = Ok tt g'
              /\ Game.selectedObject g' = None).
Proof.
  intros g.
  destruct (Inv_exec es) as [[Hlp Hst] Hg Hs Hl _ Hp].
  fold g in Hlp, Hst, Hg, Hs, Hl, Hp. clearbody g.
  assert (Hflag : forall m, m = Ground \/ m = Skybox \/ m = LaserPointer ->
                            AbstractMesh.isPickable (mesh g m) = false).
  { intros m [->|[->| ->]]; assumption. }
  split.
  - intros m Hm. split; [now apply Hflag|].
    intros H. apply Hp in H. rewrite (Hflag m Hm) in H. discriminate.
  - intros f rc mc c Hrc Hmc Hc Hedge Honly.
    assert (Hpick : pick (Game.scene g) (Frame.intersections f (pointerRay f rc))
                    = PickingInfo.empty).
    { apply pick_no_hit. intros m d Hin. apply Hflag. eauto. }
    split; [exact Hpick|].
    clear Hflag Hg Hs Hl Hp. open_game g. subst.
    rewrite Hmc, Hc. enter_trigger Hedge. unfold pointerRay in Hpick.
    rewrite !pick_set_color, Hpick. cbn.
    destruct gso as [p|]; cbn; eexists; split; reflexivity.
Qed.

Lemma unpickable_never_selected_witness :
  (AbstractMesh.isPickable (mesh Session.holding Ground) = false
   /\ Game.selectedObject Session.holding <> Some Ground)
  /\ pick (Game.scene Session.holding) [(Skybox, 19.5); (Ground, 1); (LaserPointer, 0)]
     = PickingInfo.empty
  /\ exists g',
       onRightTrigger (Session.press 0 [(Skybox, 19.5); (Ground, 1); (LaserPointer, 0)])
         (componentOf (Session.press 0 [(Skybox, 19.5); (Ground, 1); (LaserPointer, 0)])
            Session.holding "xr-standard-trigger")
         Session.holding = Ok tt g'
       /\ Game.selectedObject g' = None.
Proof.
  destruct (unpickable_never_selected
              [ControllerAdded Session.right;
               RenderLoop (Session.press 0 Session.crossings)]) as [HA HB].
  split; [apply HA; now left|].
  apply (HB (Session.press 0 [(Skybox, 19.5); (Ground, 1); (LaserPointer, 0)])
            Session.right
            (Session.controller (Session.button true true) (Some (Session.stick 0)))
            (Session.button true true)); try reflexivity.
  intros m d [H|[H|[H|[]]]]; inversion H; auto.
Defined.

(** ** The thumbstick handler *)

(** C3: while an object [m] is held (selected and parented to the
    selection transform) and the thumbstick reads [a], the handler makes
    one engine call: it translates [m] in world space along the laser
    pointer's forward direction by [-a * (deltaTime / 1000) * 3].  For a
    centred stick that distance is a zero whatever the (finite) frame
    time, and so is the displacement along a finite direction; for
    [a = 1] the distance is the opposite of [3 * (deltaTime / 1000)]. *)
Theorem thumbstick_reels_held_object
  (f : Frame.t) (g : Game.t) (m : MeshRef) (c : WebXRControllerComponent.t) :
  ready g ->
  Game.selectedObject g = Some m ->
  parentOf g m = Some (OfTransform SelectionTransform) ->
  let a := WebXRControllerComponent.y (WebXRControllerComponent.axes c) in
  let seconds := Frame.getDeltaTime f / 1000 in
  let forward := Frame.forward f LaserPointer in
  onRightThumbstick f (Some c) g
    = Ok tt (recorded (Call.translate m forward (- a * seconds * 3) WORLD) g)
  /\ (is_zero a = true -> is_finite seconds = true ->
      is_zero (- a * seconds * 3) = true
      /\ (Vector3.isFinite forward = true ->
          Vector3.isZero (Vector3.scale forward (- a * seconds * 3)) = true))
  /\ (a = 1 -> - a * seconds * 3 = - (3 * seconds)).
Proof.
  intros Hready Hso Hpar a seconds forward. split; [|split].
  - apply thumbstick_run; [assumption..|]. now rewrite Hpar.
  - intros Ha Hs.
    assert (Hz : is_zero (- a * seconds * 3) = true) by now apply moveDistance_zero.
    split; [exact Hz|]. intros Hf. now apply scale_zero.
  - intros ->. apply moveDistance_one.
Qed.

Lemma thumbstick_reels_held_object_witness :
  onRightThumbstick (Session.idle 1) (Some (Session.stick 1)) Session.holding
    = Ok tt (recorded (Call.translate (Cube 4) (Vector3.mk 0 0 1) (- 1 * (16 / 1000) * 3) WORLD)
               Session.holding)
  /\ is_zero (- 0 * (16 / 1000) * 3) = true
  /\ Vector3.isZero (Vector3.scale (Vector3.mk 0 0 1) (- 0 * (16 / 1000) * 3)) = true
  /\ - 1 * (16 / 1000) * 3 = - (3 * (16 / 1000)).
Proof.
  destruct (thumbstick_reels_held_object (Session.idle 1) Session.holding (Cube 4)
              (Session.stick 1)) as (H1 & _ & H3); try reflexivity.
  { split; reflexivity. }
  destruct (thumbstick_reels_held_object (Session.idle 0) Session.holding (Cube 4)
              (Session.stick 0)) as (_ & H2 & _); try reflexivity.
  { split; reflexivity. }
  destruct H2 as [H2 H2']; try reflexivity.
  split; [exact H1|]. split; [exact H2|]. split; [apply H2'; reflexivity|].
  apply H3; reflexivity.
Defined.

(** Without a trigger component the trigger handler does nothing, and
    with nothing held the thumbstick handler does nothing, component or
    not. *)
Lemma trigger_undefined_skips (f : Frame.t) (g : Game.t) :
  onRightTrigger f None g = Ok tt g.
Proof. reflexivity. Qed.

Lemma thumbstick_nothing_held_skips
  (f : Frame.t) (g : Game.t) (c : option WebXRControllerComponent.t) :
  (forall m, Game.selectedObject g = Some m -> parentOf g m = None) ->
  onRightThumbstick f c g = Ok tt g.
Proof.
  intros H. unfold onRightThumbstick. open_game g. unfold_M. cbn.
  destruct gso as [p|]; [|reflexivity]. now rewrite (H p eq_refl).
Qed.

(** A held object and no thumbstick component: the handler reads [axes]
    through [undefined]. *)
Lemma thumbstick_undefined_throws (f : Frame.t) (g : Game.t) (m : MeshRef) :
  Game.selectedObject g = Some m ->
  isDefined (parentOf g m) = true ->
  onRightThumbstick f None g = TypeError g.
Proof.
  intros Hso Hpar. unfold onRightThumbstick. open_game g. subst.
  unfold_M. cbn. rewrite Hpar. reflexivity.
Qed.

(** C5 fails in the code: whenever an object is held and the thumbstick
    component is missing, [onRightThumbstick] throws a [TypeError]; so
    with a controller that has a trigger and no thumbstick, the frame in
    which the trigger grabs cube 4 throws, with the cube already selected
    and parented. *)
Theorem grab_without_thumbstick_throws :
  (forall f g m,
      Game.selectedObject g = Some m ->
      isDefined (parentOf g m) = true ->
      onRightThumbstick f None g = TypeError g)
  /\ componentOf Session.pressNoStick Session.connected "xr-standard-thumbstick" = None
  /\ exists g',
       update Session.pressNoStick Session.connected = TypeError g'
       /\ Game.selectedObject g' = Some (Cube 4)
       /\ parentOf g' (Cube 4) = Some (OfTransform SelectionTransform).
Proof.
  split; [exact thumbstick_undefined_throws|].
  split; [reflexivity|]. eexists. split; [vm_compute; reflexivity|].
  split; reflexivity.
Qed.

(** ** The pointer colour *)

(** Every release edge paints the pointer blue. *)
Lemma release_paints_blue
  (f : Frame.t) (g : Game.t) (c : WebXRControllerComponent.t) :
  ready g ->
  releaseEdge c = true ->
  laserColor (final (onRightTrigger f (Some c) g)) = Color3.Blue.
Proof.
  intros [Hlp Hst] Hedge. open_game g. subst.
  enter_trigger Hedge.
  destruct gso as [p|]; cbn; [destruct grc as [rc|]; cbn;
    [destruct (isDefined (Frame.motionController f rc)); cbn|]|];
    through_alter; now rewrite fn_lookup_alter.
Qed.

(** C7 fails in the code: the pointer is created yellow, every release
    edge paints it blue, and so after a press and a release it is blue,
    not yellow again. *)
Theorem released_pointer_is_not_initial_colour :
  laserColor (exec []) = Color3.Yellow
  /\ (forall f g c,
         ready g -> releaseEdge c = true ->
         laserColor (final (onRightTrigger f (Some c) g)) = Color3.Blue)
  /\ laserColor (exec [ControllerAdded Session.right;
                       RenderLoop (Session.press 0 Session.crossings);
                       RenderLoop Session.letGo]) = Color3.Blue
  /\ Color3.Blue <> Color3.Yellow.
Proof.
  split; [reflexivity|]. split; [exact release_paints_blue|].
  split; [reflexivity|]. apply Blue_neq_Yellow.
Qed.

(** ** One frame *)

(** C8: a frame runs the trigger handler and then the thumbstick handler
    on the state the trigger handler left; so when the trigger grabs [m]
    in a frame, the thumbstick move of that frame translates [m]. *)
Theorem trigger_before_thumbstick
  (f : Frame.t) (g : Game.t) (rc : string)
  (mc : WebXRAbstractMotionController.t) (c t : WebXRControllerComponent.t)
  (m : MeshRef) (d : float) :
  ready g ->
  Game.rightController g = Some rc ->
  Frame.motionController f rc = Some mc ->
  WebXRAbstractMotionController.getComponent mc "xr-standard-trigger" = Some c ->
  WebXRAbstractMotionController.getComponent mc "xr-standard-thumbstick" = Some t ->
  pressEdge c = true ->
  pick (Game.scene g) (Frame.intersections f (pointerRay f rc))
    = PickingInfo.mk true (Some m) d ->
  update f g
  = match onRightTrigger f (componentOf f g "xr-standard-trigger") g with
    | Ok _ g1 => onRightThumbstick f (componentOf f g1 "xr-standard-thumbstick") g1
    | TypeError g1 => TypeError g1
    end
  /\ exists g1,
       onRightTrigger f (componentOf f g "xr-standard-trigger") g = Ok tt g1
       /\ Game.selectedObject g1 = Some m
       /\ update f g
          = Ok tt (recorded
                     (Call.translate m (Frame.forward f LaserPointer)
                        (moveDistance
                           (WebXRControllerComponent.y (WebXRControllerComponent.axes t))
                           (Frame.getDeltaTime f)) WORLD) g1).
Proof.
  intros Hready Hrc Hmc Hc Ht Hedge Hpick.
  split; [apply processControllerInput_eq|].
  destruct (press_hit_run f g rc mc c m d Hready Hrc Hmc Hc Hedge Hpick)
    as (g1 & Hrun & [Hready1 Hrc1] & Hso & _ & _ & Hpar & _).
  exists g1. split; [exact Hrun|]. split; [exact Hso|].
  unfold update. rewrite processControllerInput_eq, Hrun.
  unfold componentOf, rightMotionController. rewrite Hrc1, Hmc, Ht.
  apply thumbstick_run; [assumption..|]. now rewrite Hpar.
Qed.

Lemma trigger_before_thumbstick_witness :
  exists g1,
    onRightTrigger (Session.press 1 Session.crossings)
      (componentOf (Session.press 1 Session.crossings) Session.connected
         "xr-standard-trigger") Session.connected = Ok tt g1
    /\ Game.selectedObject g1 = Some (Cube 4)
    /\ update (Session.press 1 Session.crossings) Session.connected
       = Ok tt (recorded
                  (Call.translate (Cube 4) (Vector3.mk 0 0 1) (moveDistance 1 16) WORLD)
                  g1).
Proof.
  apply (trigger_before_thumbstick (Session.press 1 Session.crossings)
           Session.connected Session.right
           (Session.controller (Session.button true true) (Some (Session.stick 1)))
           (Session.button true true) (Session.stick 1) (Cube 4) 2).
  - split; reflexivity.
  - reflexivity.
  - reflexivity.
  - reflexivity.
  - reflexivity.
  - reflexivity.
  - vm_compute. reflexivity.
Defined.

(** * Further properties of the handlers *)

(** ** Strings *)

Lemma substring_all (s : string) : String.substring 0 (String.length s) s = s.
Proof. induction s as [|a s IH]; cbn; [reflexivity|now rewrite IH]. Qed.

Lemma length_append (p s : string) :
  String.length (p +:+ s) = (String.length p + String.length s)%nat.
Proof.
  induction p as [|a p IH]; [reflexivity|].
  change (String a p +:+ s) with (String a (p +:+ s)). cbn. now rewrite IH.
Qed.

Lemma substring_append (p s : string) :
  String.substring (String.length p) (String.length s) (p +:+ s) = s.
Proof.
  induction p as [|a p IH]; [apply substring_all|].
  change (String a p +:+ s) with (String a (p +:+ s)). exact IH.
Qed.

Lemma substring_split (n : nat) (s : string) :
  (n <= String.length s)%nat ->
  s = String.substring 0 n s +:+ String.substring n (String.length s - n) s.
Proof.
  revert s. induction n as [|n IH]; intros s Hn.
  - rewrite Nat.sub_0_r, substring_all. now destruct s.
  - destruct s as [|a s]; cbn in Hn; [lia|].
    cbn [String.substring String.length Nat.sub].
    change (String a ?x +:+ ?y) with (String a (x +:+ y)).
    f_equal. apply IH. lia.
Qed.

(** [endsWith] holds of exactly the strings that are some prefix followed
    by the suffix. *)
Lemma endsWith_iff (s suffix : string) :
  endsWith s suffix = true <-> exists p, s = p +:+ suffix.
Proof.
  unfold endsWith. rewrite andb_true_iff, Nat.leb_le, String.eqb_eq. split.
  - intros [Hle Hsub].
    exists (String.substring 0 (String.length s - String.length suffix) s).
    pose proof (substring_split (String.length s - String.length suffix) s) as H.
    replace (String.length s - (String.length s - String.length suffix))%nat
      with (String.length suffix) in H by lia.
    rewrite Hsub in H. apply H. lia.
  - intros [p ->]. rewrite length_append. split; [lia|].
    replace (String.length p + String.length suffix - String.length suffix)%nat
      with (String.length p) by lia.
    apply substring_append.
Qed.

(** ** More of the store *)

Lemma visibility_alter (h : AbstractMesh.t -> AbstractMesh.t)
  (ms : MeshRef -> AbstractMesh.t) (m x : MeshRef) :
  (forall a, AbstractMesh.visibility (h a) = AbstractMesh.visibility a) ->
  AbstractMesh.visibility (alter h m ms x) = AbstractMesh.visibility (ms x).
Proof.
  intros H. destruct (decide (m = x)) as [->|Hne].
  - now rewrite fn_lookup_alter.
  - now rewrite fn_lookup_alter_ne.
Qed.

Lemma alpha_alter (h : AbstractMesh.t -> AbstractMesh.t)
  (ms : MeshRef -> AbstractMesh.t) (m x : MeshRef) :
  (forall a, AbstractMesh.alpha (h a) = AbstractMesh.alpha a) ->
  AbstractMesh.alpha (alter h m ms x) = AbstractMesh.alpha (ms x).
Proof.
  intros H. destruct (decide (m = x)) as [->|Hne].
  - now rewrite fn_lookup_alter.
  - now rewrite fn_lookup_alter_ne.
Qed.

Ltac through_alters :=
  repeat first
    [ progress through_alter
    | rewrite visibility_alter by (intros []; reflexivity)
    | rewrite alpha_alter by (intros []; reflexivity) ].

Ltac unfold_M12 :=
  cbv [Lecture12.onControllerRemoved Lecture12.selectHit Lecture12.release];
  unfold_M.

(** The state after one more callback. *)
Lemma exec_snoc (es : list Event) (e : Event) :
  exec (es ++ [e]) = final (dispatch e (exec es)).
Proof. unfold exec. now rewrite fold_left_app. Qed.

(** ** Controllers coming and going *)

(** X1: a controller whose identifier ends in "right" becomes the right
    controller, the laser pointer is hung on its pointer mesh and made
    visible; any other controller becomes the left controller and nothing
    else changes.  In both cases the selection, every other mesh, the
    selection transform and the recorded calls are untouched. *)
Theorem controller_added (uid : string) (g : Game.t) :
  ready g ->
  ((exists p, uid = p +:+ "right") ->
   exists g',
     onControllerAdded uid g = Ok tt g'
     /\ Game.rightController g' = Some uid
     /\ Game.leftController g' = Game.leftController g
     /\ parentOf g' LaserPointer = Some (OfMesh (Pointer uid))
     /\ AbstractMesh.visibility (mesh g' LaserPointer) = 1
     /\ Game.selectedObject g' = Game.selectedObject g
     /\ (forall m, m <> LaserPointer -> mesh g' m = mesh g m)
     /\ anchor g' = anchor g
     /\ calls g' = calls g)
  /\ ((~ exists p, uid = p +:+ "right") ->
      onControllerAdded uid g = Ok tt (Game.set_leftController (Some uid) g)).
Proof.
  intros [Hlp Hst]. unfold onControllerAdded. split.
  - intros Hr. apply endsWith_iff in Hr. rewrite Hr.
    open_game g. subst. unfold_M. cbn.
    eexists. split; [reflexivity|].
    unfold parentOf, mesh, anchor, calls. cbn.
    rewrite !fn_lookup_alter. cbn.
    repeat split; try reflexivity.
    intros m Hm. now rewrite !fn_lookup_alter_ne by congruence.
  - intros Hn. destruct (endsWith uid "right") eqn:E; [|reflexivity].
    apply endsWith_iff in E. contradiction.
Qed.

Lemma controller_added_witness :
  (exists g',
      onControllerAdded Session.right Session.holding = Ok tt g'
      /\ Game.rightController g' = Some Session.right
      /\ parentOf g' LaserPointer = Some (OfMesh (Pointer Session.right))
      /\ Game.selectedObject g' = Some (Cube 4))
  /\ onControllerAdded "controller-1-tracked-pointer-left" Session.holding
     = Ok tt (Game.set_leftController (Some "controller-1-tracked-pointer-left")
                Session.holding).
Proof.
  destruct (controller_added Session.right Session.holding) as [HA _];
    [split; reflexivity|].
  destruct (controller_added "controller-1-tracked-pointer-left" Session.holding)
    as [_ HB]; [split; reflexivity|].
  split.
  - destruct HA as (g' & H1 & H2 & _ & H4 & _ & H6 & _).
    + now exists "controller-0-tracked-pointer-".
    + exists g'. repeat split; assumption.
  - apply HB. intros [p Hp]. apply (f_equal (fun s => endsWith s "right")) in Hp.
    rewrite (proj2 (endsWith_iff (p +:+ "right") "right")) in Hp by eauto.
    vm_compute in Hp. discriminate.
Defined.

(** X2: removing a right-hand controller detaches and hides the laser
    pointer and does nothing else: the right controller reference, the
    selection, a held object's parent link, the highlights, the selection
    transform and the recorded calls stay.  Removing any other controller
    changes nothing. *)
Theorem controller_removed (uid : string) (g : Game.t) :
  ready g ->
  ((exists p, uid = p +:+ "right") ->
   exists g',
     onControllerRemoved uid g = Ok tt g'
     /\ parentOf g' LaserPointer = None
     /\ AbstractMesh.visibility (mesh g' LaserPointer) = 0
     /\ laserColor g' = laserColor g
     /\ Game.rightController g' = Game.rightController g
     /\ Game.leftController g' = Game.leftController g
     /\ Game.selectedObject g' = Game.selectedObject g
     /\ (forall m, m <> LaserPointer -> mesh g' m = mesh g m)
     /\ anchor g' = anchor g
     /\ calls g' = calls g)
  /\ ((~ exists p, uid = p +:+ "right") -> onControllerRemoved uid g = Ok tt g).
Proof.
  intros [Hlp Hst]. unfold onControllerRemoved. split.
  - intros Hr. apply endsWith_iff in Hr. rewrite Hr.
    open_game g. subst. unfold_M. cbn.
    eexists. split; [reflexivity|].
    unfold parentOf, mesh, anchor, calls. cbn.
    rewrite !fn_lookup_alter. cbn.
    repeat split; try reflexivity.
    intros m Hm. now rewrite !fn_lookup_alter_ne by congruence.
  - intros Hn. destruct (endsWith uid "right") eqn:E; [|reflexivity].
    apply endsWith_iff in E. contradiction.
Qed.

Lemma controller_removed_witness :
  exists g',
    onControllerRemoved Session.right Session.holding = Ok tt g'
    /\ parentOf g' LaserPointer = None
    /\ Game.rightController g' = Some Session.right
    /\ Game.selectedObject g' = Some (Cube 4)
    /\ parentOf g' (Cube 4) = Some (OfTransform SelectionTransform).
Proof.
  destruct (controller_removed Session.right Session.holding) as [HA _];
    [split; reflexivity|].
  destruct HA as (g' & H1 & H2 & _ & _ & H5 & _ & H7 & H8 & _).
  - now exists "controller-0-tracked-pointer-".
  - exists g'. repeat split; try assumption.
    unfold parentOf. now rewrite H8.
Defined.

(** The laser pointer is neither selected nor picked in a session. *)
Lemma frame_keeps_laser (f : Frame.t) (g : Game.t) :
  Inv g ->
  parentOf (final (update f g)) LaserPointer = parentOf g LaserPointer
  /\ AbstractMesh.visibility (mesh (final (update f g)) LaserPointer)
     = AbstractMesh.visibility (mesh g LaserPointer).
Proof.
  intros HI. unfold update. rewrite processControllerInput_eq.
  assert (HT : forall c,
             parentOf (final (onRightTrigger f c g)) LaserPointer = parentOf g LaserPointer
             /\ AbstractMesh.visibility (mesh (final (onRightTrigger f c g)) LaserPointer)
                = AbstractMesh.visibility (mesh g LaserPointer)).
  { intros c. destruct HI as [[Hlp Hst] _ _ Hl _ Hp].
    unfold onRightTrigger.
    destruct (isDefined _); [|now split].
    destruct (default false _).
    - open_game g. subst. unfold_M. cbn.
      destruct grc as [rc|]; cbn; [|split; through_alters; reflexivity].
      rewrite pick_set_color.
      destruct (PickingInfo.hit (pick _ _)) eqn:Ehit.
      + destruct (pick_hit _ _ Ehit) as (m & d & -> & _ & Hm). cbn in Hm.
        assert (m <> LaserPointer) by congruence.
        destruct gso as [p|]; cbn;
          [assert (p <> LaserPointer) by (specialize (Hp p eq_refl); cbn in Hp; congruence)|];
          destruct (isDefined (Frame.motionController f rc)); cbn;
          split; through_alters;
          rewrite ?fn_lookup_alter_ne by assumption; through_alters; reflexivity.
      + destruct gso as [p|]; cbn; split; through_alters; reflexivity.
    - open_game g. subst. unfold_M. cbn.
      destruct gso as [p|]; cbn;
        [assert (p <> LaserPointer) by (specialize (Hp p eq_refl); cbn in Hp; congruence)|].
      + destruct grc as [rc|]; cbn;
          [destruct (isDefined (Frame.motionController f rc)); cbn|];
          split; through_alters;
          rewrite ?fn_lookup_alter_ne by assumption; through_alters; reflexivity.
      + split; through_alters; reflexivity. }
  specialize (HT (componentOf f g "xr-standard-trigger")).
  destruct (onRightTrigger f _ g) as [[] g1|g1]; cbn [final] in *; [|exact HT].
  destruct HT as [<- <-].
  generalize (componentOf f g1 "xr-standard-thumbstick"). intros t.
  unfold onRightThumbstick. clear. open_game g1. unfold_M. cbn.
  destruct gso as [p|]; cbn; [|now split].
  destruct (isDefined _); cbn; [|now split].
  destruct t as [t|]; cbn; [|now split].
  destruct glp as [lp|]; cbn; now split.
Qed.

(** X3: throughout a session the laser pointer hangs on the pointer mesh
    of the right-hand controller added last and is visible, or, once a
    right-hand controller was removed (or before any was added), hangs on
    nothing and is invisible; frames never change this. *)
Theorem laser_tracks_right_controller (es : list Event) :
  parentOf (exec es) LaserPointer = (OfMesh ∘ Pointer <$> attachedTo es)
  /\ AbstractMesh.visibility (mesh (exec es) LaserPointer)
     = (if isDefined (attachedTo es) then 1 else 0).
Proof.
  induction es as [|e es IH] using rev_ind; [split; reflexivity|].
  rewrite exec_snoc. unfold attachedTo. rewrite fold_left_app. cbn [fold_left].
  fold (attachedTo es).
  pose proof (Inv_exec es) as HI.
  destruct e as [uid|uid|f]; cbn [dispatch].
  - destruct HI as [[Hlp Hst] _ _ _ _ _]. revert IH Hlp. generalize (exec es). intros g IH Hlp.
    unfold onControllerAdded. destruct (endsWith uid "right").
    + open_game g. subst. unfold_M. cbn. now rewrite !fn_lookup_alter.
    + exact IH.
  - destruct HI as [[Hlp Hst] _ _ _ _ _]. revert IH Hlp. generalize (exec es). intros g IH Hlp.
    unfold onControllerRemoved. destruct (endsWith uid "right").
    + open_game g. subst. unfold_M. cbn. now rewrite !fn_lookup_alter.
    + exact IH.
  - destruct (frame_keeps_laser f (exec es) HI) as [-> ->]. exact IH.
Qed.

(** ** More of the trigger handler *)

(** X4: a press never releases.  When the trigger goes down on [m] while
    another object [p] is still parented to the selection transform, [p]
    loses its highlight and the selection but keeps its parent link: no
    [setParent(null)] is called, and afterwards both [p] and [m] hang on
    the selection transform. *)
Theorem press_keeps_previous_parented
  (f : Frame.t) (g : Game.t) (rc : string)
  (mc : WebXRAbstractMotionController.t) (c : WebXRControllerComponent.t)
  (p m : MeshRef) (d : float) :
  ready g ->
  Game.rightController g = Some rc ->
  Frame.motionController f rc = Some mc ->
  WebXRAbstractMotionController.getComponent mc "xr-standard-trigger" = Some c ->
  pressEdge c = true ->
  Game.selectedObject g = Some p ->
  parentOf g p = Some (OfTransform SelectionTransform) ->
  pick (Game.scene g) (Frame.intersections f (pointerRay f rc))
    = PickingInfo.mk true (Some m) d ->
  m <> p ->
  exists g',
    onRightTrigger f (componentOf f g "xr-standard-trigger") g = Ok tt g'
    /\ Game.selectedObject g' = Some m
    /\ highlighted g' p = false
    /\ parentOf g' p = Some (OfTransform SelectionTransform)
    /\ parentOf g' m = Some (OfTransform SelectionTransform)
    /\ calls g' = calls g
                  ++ [Call.disableEdgesRendering p;
                      Call.enableEdgesRendering m;
                      Call.setParent m (Some (OfTransform SelectionTransform));
                      Call.pulse rc 0.2 50].
Proof.
  intros [Hlp Hst] Hrc Hmc Hc Hedge Hso Hpar Hpick Hne.
  open_game g. subst.
  rewrite Hmc, Hc. enter_trigger Hedge. unfold pointerRay in Hpick.
  rewrite !pick_set_color, Hpick. cbn. rewrite Hmc. cbn.
  eexists. split; [reflexivity|].
  unfold highlighted, parentOf, mesh, calls. cbn.
  rewrite !fn_lookup_alter. cbn. rewrite <- !app_assoc. cbn.
  repeat split; try reflexivity.
  - rewrite !(fn_lookup_alter_ne _ _ m p) by assumption. now rewrite fn_lookup_alter.
  - rewrite !(fn_lookup_alter_ne _ _ m p) by assumption. through_alter. exact Hpar.
Qed.

Lemma press_keeps_previous_parented_witness :
  exists g',
    onRightTrigger (Session.press 0 [(Cube 3, 2.5)])
      (componentOf (Session.press 0 [(Cube 3, 2.5)]) Session.holding
         "xr-standard-trigger") Session.holding = Ok tt g'
    /\ Game.selectedObject g' = Some (Cube 3)
    /\ highlighted g' (Cube 4) = false
    /\ parentOf g' (Cube 4) = Some (OfTransform SelectionTransform)
    /\ parentOf g' (Cube 3) = Some (OfTransform SelectionTransform)
    /\ calls g' = calls Session.holding
                  ++ [Call.disableEdgesRendering (Cube 4);
                      Call.enableEdgesRendering (Cube 3);
                      Call.setParent (Cube 3) (Some (OfTransform SelectionTransform));
                      Call.pulse Session.right 0.2 50].
Proof.
  apply (press_keeps_previous_parented (Session.press 0 [(Cube 3, 2.5)])
           Session.holding Session.right
           (Session.controller (Session.button true true) (Some (Session.stick 0)))
           (Session.button true true) (Cube 4) (Cube 3) 2.5); try reflexivity.
  - split; reflexivity.
  - discriminate.
Defined.

(** X5: a press that hits nothing paints the pointer green and clears
    the selection and its highlight, and that is all: no parent link and
    not the selection transform changes, and no pulse is sent. *)
Theorem press_that_misses
  (f : Frame.t) (g : Game.t) (rc : string)
  (mc : WebXRAbstractMotionController.t) (c : WebXRControllerComponent.t) :
  ready g ->
  Game.rightController g = Some rc ->
  Frame.motionController f rc = Some mc ->
  WebXRAbstractMotionController.getComponent mc "xr-standard-trigger" = Some c ->
  pressEdge c = true ->
  PickingInfo.hit (pick (Game.scene g) (Frame.intersections f (pointerRay f rc))) = false ->
  exists g',
    onRightTrigger f (componentOf f g "xr-standard-trigger") g = Ok tt g'
    /\ Game.selectedObject g' = None
    /\ laserColor g' = Color3.Green
    /\ (forall x, highlighted g' x
                  = if decide (Game.selectedObject g = Some x) then false
                    else highlighted g x)
    /\ (forall x, parentOf g' x = parentOf g x)
    /\ anchor g' = anchor g
    /\ calls g' = calls g ++ deselectCalls g.
Proof.
  intros [Hlp Hst] Hrc Hmc Hc Hedge Hpick.
  open_game g. subst.
  rewrite Hmc, Hc. enter_trigger Hedge. unfold pointerRay in Hpick.
  rewrite !pick_set_color, Hpick. cbn.
  destruct gso as [p|]; cbn; (eexists; split; [reflexivity|]);
    unfold laserColor, highlighted, parentOf, mesh, anchor, calls; cbn.
  - split; [reflexivity|]. split.
    { rewrite color_alter by (intros []; reflexivity). now rewrite fn_lookup_alter. }
    split.
    { intros x. destruct (decide (Some p = Some x)) as [E|E].
      - inversion E. subst. now rewrite fn_lookup_alter.
      - rewrite fn_lookup_alter_ne by congruence. now through_alter. }
    split; [intros x; now through_alter|]. split; reflexivity.
  - rewrite app_nil_r. split; [reflexivity|]. split; [now rewrite fn_lookup_alter|].
    split.
    { intros x. destruct (decide (None = Some x)); [discriminate|]. now through_alter. }
    split; [intros x; now through_alter|]. split; reflexivity.
Qed.

Lemma press_that_misses_witness :
  exists g',
    onRightTrigger (Session.press 0 [])
      (componentOf (Session.press 0 []) Session.holding "xr-standard-trigger")
      Session.holding = Ok tt g'
    /\ Game.selectedObject g' = None
    /\ laserColor g' = Color3.Green
    /\ highlighted g' (Cube 4) = false
    /\ parentOf g' (Cube 4) = Some (OfTransform SelectionTransform)
    /\ calls g' = calls Session.holding ++ [Call.disableEdgesRendering (Cube 4)].
Proof.
  destruct (press_that_misses (Session.press 0 []) Session.holding Session.right
              (Session.controller (Session.button true true) (Some (Session.stick 0)))
              (Session.button true true))
    as (g' & H1 & H2 & H3 & H4 & H5 & _ & H7); try reflexivity.
  { split; reflexivity. }
  exists g'. repeat split; try assumption.
  - now rewrite H4.
  - now rewrite H5.
Defined.

(** ** Whole frames *)

(** X6: a frame in which the trigger did not change (or there is no
    trigger at all) and in which no selected object is parented is
    [update]'s identity: nothing is written and nothing can throw,
    whatever the thumbstick reads and whether or not it exists. *)
Theorem idle_frame_is_identity (f : Frame.t) (g : Game.t) :
  isDefined (componentOf f g "xr-standard-trigger"
             ≫= WebXRControllerComponent.changes_pressed) = false ->
  (forall m, Game.selectedObject g = Some m -> parentOf g m = None) ->
  update f g = Ok tt g.
Proof.
  intros Hidle Hfree. unfold update. rewrite processControllerInput_eq.
  unfold onRightTrigger. rewrite Hidle. cbn.
  now apply thumbstick_nothing_held_skips.
Qed.

Lemma idle_frame_is_identity_witness :
  update (Session.idle 1) Session.connected = Ok tt Session.connected.
Proof.
  apply (idle_frame_is_identity (Session.idle 1) Session.connected).
  - reflexivity.
  - intros m H. discriminate.
Defined.

(** In a session the trigger handler always completes. *)
Lemma trigger_completes (f : Frame.t) (g : Game.t) :
  Inv g ->
  exists g1,
    onRightTrigger f (componentOf f g "xr-standard-trigger") g = Ok tt g1
    /\ Game.rightController g1 = Game.rightController g.
Proof.
  intros [[Hlp Hst] _ _ _ _ _].
  unfold componentOf, rightMotionController.
  destruct (Game.rightController g) as [rc|] eqn:Hrc; [|eauto].
  destruct (Frame.motionController f rc) as [mc|] eqn:Hmc; [|cbn; eauto].
  destruct (WebXRAbstractMotionController.getComponent mc _) as [c|]; [|cbn; eauto].
  unfold onRightTrigger. cbn [mbind option_bind].
  destruct (isDefined _); [|cbn; eauto].
  cbn [fmap option_fmap option_map default].
  open_game g. subst.
  destruct (WebXRControllerComponent.pressed c); unfold_M; cbn.
  - rewrite pick_set_color.
    destruct (PickingInfo.hit (pick _ _)) eqn:Ehit.
    + destruct (pick_hit _ _ Ehit) as (m & d & -> & _ & _). cbn.
      destruct gso as [p|]; cbn; rewrite Hmc; cbn; eauto.
    + destruct gso as [p|]; cbn; eauto.
  - destruct gso as [p|]; cbn; rewrite ?Hmc; cbn; eauto.
Qed.

(** The thumbstick handler throws only for want of its component. *)
Lemma thumbstick_throw_inv
  (f : Frame.t) (t : option WebXRControllerComponent.t) (g g' : Game.t) :
  ready g ->
  onRightThumbstick f t g = TypeError g' ->
  t = None
  /\ exists m, Game.selectedObject g' = Some m /\ isDefined (parentOf g' m) = true.
Proof.
  intros [Hlp Hst]. unfold onRightThumbstick. open_game g. subst. unfold_M. cbn.
  destruct gso as [m|]; [|discriminate].
  destruct (isDefined (AbstractMesh.parent (gms m))) eqn:Hpar; [|discriminate].
  destruct t as [t|]; [discriminate|].
  cbn. intros H. inversion H. subst. split; [reflexivity|].
  exists m. cbn. auto.
Qed.

(** X7: the one way a callback throws.  In every session, if a callback
    throws, it is a frame whose controller has no thumbstick component
    while the selected object is parented; the controller callbacks and
    the trigger handler never throw, and a frame whose controller has a
    thumbstick always completes. *)
Theorem throws_only_without_thumbstick (es : list Event) (e : Event) (g' : Game.t) :
  dispatch e (exec es) = TypeError g' ->
  exists f m,
    e = RenderLoop f
    /\ componentOf f (exec es) "xr-standard-thumbstick" = None
    /\ Game.selectedObject g' = Some m
    /\ isDefined (parentOf g' m) = true.
Proof.
  pose proof (Inv_exec es) as HI. revert HI. generalize (exec es). intros g HI Hthrow.
  destruct e as [uid|uid|f]; cbn [dispatch] in Hthrow.
  - exfalso. destruct HI as [[Hlp Hst] _ _ _ _ _].
    unfold onControllerAdded in Hthrow. destruct (endsWith uid "right");
      open_game g; subst; discriminate.
  - exfalso. destruct HI as [[Hlp Hst] _ _ _ _ _].
    unfold onControllerRemoved in Hthrow. destruct (endsWith uid "right");
      open_game g; subst; discriminate.
  - exists f. unfold update in Hthrow. rewrite processControllerInput_eq in Hthrow.
    pose proof (Inv_onRightTrigger f (componentOf f g "xr-standard-trigger") g HI) as HI1.
    destruct (trigger_completes f g HI) as (g1 & Hrun & Hrc1).
    rewrite Hrun in Hthrow, HI1. cbn [final] in HI1.
    assert (Hsame : componentOf f g1 "xr-standard-thumbstick"
                    = componentOf f g "xr-standard-thumbstick").
    { unfold componentOf, rightMotionController. now rewrite Hrc1. }
    rewrite Hsame in Hthrow.
    destruct (thumbstick_throw_inv f _ g1 g' (inv_ready _ HI1) Hthrow)
      as (Ht & m & Hso & Hpar).
    exists m. auto.
Qed.

Lemma throws_only_without_thumbstick_witness :
  exists f m,
    RenderLoop Session.pressNoStick = RenderLoop f
    /\ componentOf f (exec [ControllerAdded Session.right]) "xr-standard-thumbstick" = None
    /\ Game.selectedObject
         (final (dispatch (RenderLoop Session.pressNoStick)
                   (exec [ControllerAdded Session.right]))) = Some m
    /\ isDefined (parentOf (final (dispatch (RenderLoop Session.pressNoStick)
                                     (exec [ControllerAdded Session.right]))) m) = true.
Proof.
  apply (throws_only_without_thumbstick [ControllerAdded Session.right]
           (RenderLoop Session.pressNoStick)
           (final (dispatch (RenderLoop Session.pressNoStick)
                     (exec [ControllerAdded Session.right])))).
  vm_compute. reflexivity.
Defined.

(** X8: the frame of a release ignores the thumbstick.  The trigger
    handler runs first and leaves the selected object without a parent,
    so the frame is the trigger handler alone: it makes no [translate]
    call and completes even when the controller has no thumbstick. *)
Theorem release_frame_ignores_thumbstick
  (f : Frame.t) (g : Game.t) (rc : string)
  (mc : WebXRAbstractMotionController.t) (c : WebXRControllerComponent.t) :
  ready g ->
  Game.rightController g = Some rc ->
  Frame.motionController f rc = Some mc ->
  WebXRAbstractMotionController.getComponent mc "xr-standard-trigger" = Some c ->
  releaseEdge c = true ->
  exists g',
    onRightTrigger f (componentOf f g "xr-standard-trigger") g = Ok tt g'
    /\ update f g = Ok tt g'
    /\ calls g' = calls g
                  ++ match Game.selectedObject g with
                     | Some p => [Call.setParent p None; Call.pulse rc 0.2 50]
                     | None => []
                     end.
Proof.
  intros [Hlp Hst] Hrc Hmc Hc Hedge.
  unfold update. rewrite processControllerInput_eq.
  assert (Hrun : exists g',
             onRightTrigger f (componentOf f g "xr-standard-trigger") g = Ok tt g'
             /\ (forall m, Game.selectedObject g' = Some m -> parentOf g' m = None)
             /\ calls g' = calls g
                  ++ match Game.selectedObject g with
                     | Some p => [Call.setParent p None; Call.pulse rc 0.2 50]
                     | None => []
                     end).
  { open_game g. subst. rewrite Hmc, Hc. enter_trigger Hedge.
    destruct gso as [p|]; cbn; rewrite ?Hmc; cbn; (eexists; split; [reflexivity|]);
      unfold parentOf, mesh, calls; cbn.
    - split; [|now rewrite <- app_assoc].
      intros m Hm. inversion Hm. subst. now rewrite fn_lookup_alter.
    - split; [discriminate|now rewrite app_nil_r]. }
  destruct Hrun as (g' & Hrun & Hfree & Hcalls).
  exists g'. rewrite Hrun. split; [reflexivity|]. split; [|exact Hcalls].
  now apply thumbstick_nothing_held_skips.
Qed.

Lemma release_frame_ignores_thumbstick_witness :
  exists g',
    update (Session.frame (Session.controller (Session.button false true) None) [])
      Session.holding = Ok tt g'
    /\ calls g' = calls Session.holding
                  ++ [Call.setParent (Cube 4) None; Call.pulse Session.right 0.2 50].
Proof.
  destruct (release_frame_ignores_thumbstick
              (Session.frame (Session.controller (Session.button false true) None) [])
              Session.holding Session.right
              (Session.controller (Session.button false true) None)
              (Session.button false true))
    as (g' & _ & H2 & H3); try reflexivity.
  { split; reflexivity. }
  exists g'. split; assumption.
Defined.

(** ** What the call log and the scene graph look like in a session *)

Lemma Paired_app (l l' : list Call.t) : Paired l -> Paired l' -> Paired (l ++ l').
Proof.
  intros H H'. induction H; cbn; [assumption|now constructor|now constructor].
Qed.

Lemma Paired_count (l : list Call.t) :
  Paired l -> count isPulse l = count isSetParent l.
Proof.
  unfold count. intros H. induction H as [|m node rc rest H IH|c rest Hp Hs H IH]; cbn.
  - reflexivity.
  - now rewrite IH.
  - now rewrite Hp, Hs.
Qed.

(** What one callback adds to the log. *)
Lemma dispatch_calls (e : Event) (g : Game.t) :
  Inv g ->
  exists added, calls (final (dispatch e g)) = calls g ++ added /\ Paired added.
Proof.
  intros HI. destruct e as [uid|uid|f]; cbn [dispatch].
  - exists []. split; [|constructor]. rewrite app_nil_r.
    unfold onControllerAdded. destruct (endsWith uid "right");
      open_game g; unfold_M; cbn; [destruct glp; reflexivity|reflexivity].
  - exists []. split; [|constructor]. rewrite app_nil_r.
    unfold onControllerRemoved. destruct (endsWith uid "right");
      open_game g; unfold_M; cbn; [destruct glp; reflexivity|reflexivity].
  - unfold update. rewrite processControllerInput_eq.
    assert (HT : exists g1 added,
               onRightTrigger f (componentOf f g "xr-standard-trigger") g = Ok tt g1
               /\ calls g1 = calls g ++ added /\ Paired added).
    { destruct HI as [[Hlp Hst] _ _ _ _ _].
      unfold componentOf, rightMotionController.
      destruct (Game.rightController g) as [rc|] eqn:Hrc;
        [|exists g, []; rewrite app_nil_r; repeat split; constructor].
      destruct (Frame.motionController f rc) as [mc|] eqn:Hmc;
        [|exists g, []; rewrite app_nil_r; repeat split; constructor].
      destruct (WebXRAbstractMotionController.getComponent mc _) as [c|];
        [|exists g, []; rewrite app_nil_r; repeat split; constructor].
      unfold onRightTrigger. cbn [mbind option_bind].
      destruct (isDefined _);
        [|exists g, []; rewrite app_nil_r; repeat split; constructor].
      cbn [fmap option_fmap option_map default].
      open_game g. subst.
      destruct (WebXRControllerComponent.pressed c); unfold_M; cbn.
      - rewrite pick_set_color.
        destruct (PickingInfo.hit (pick _ _)) eqn:Ehit.
        + destruct (pick_hit _ _ Ehit) as (m & d & -> & _ & _). cbn.
          destruct gso as [p|]; cbn; rewrite Hmc; cbn;
            eexists; eexists; (split; [reflexivity|]); cbn;
            rewrite <- ?app_assoc; cbn; (split; [reflexivity|]);
            repeat (first [ apply Paired_reparent
                          | apply Paired_other; [reflexivity|reflexivity|]
                          | apply Paired_nil ]).
        + destruct gso as [p|]; cbn.
          * eexists; eexists; (split; [reflexivity|]); cbn.
            split; [reflexivity|].
            apply Paired_other; [reflexivity..|apply Paired_nil].
          * exists (Game.mk (Scene.mk (alter (AbstractMesh.set_color Color3.Green)
                                         LaserPointer gms) gts gcs)
                      glc (Some rc) None (Some SelectionTransform) (Some LaserPointer)), [].
            cbn. rewrite app_nil_r. repeat split; constructor.
      - destruct gso as [p|]; cbn; rewrite ?Hmc; cbn.
        + eexists; eexists; (split; [reflexivity|]); cbn.
          rewrite <- ?app_assoc; cbn. split; [reflexivity|].
          apply Paired_reparent, Paired_nil.
        + exists (Game.mk (Scene.mk (alter (AbstractMesh.set_color Color3.Blue)
                                       LaserPointer gms) gts gcs)
                    glc (Some rc) None (Some SelectionTransform) (Some LaserPointer)), [].
          cbn. rewrite app_nil_r. repeat split; constructor. }
    destruct HT as (g1 & added & Hrun & Hcalls & Hpaired). rewrite Hrun.
    assert (HS : exists more,
               calls (final (onRightThumbstick f
                               (componentOf f g1 "xr-standard-thumbstick") g1))
               = calls g1 ++ more /\ Paired more).
    { generalize (componentOf f g1 "xr-standard-thumbstick"). intros t.
      unfold onRightThumbstick. clear. open_game g1. unfold_M. cbn.
      destruct gso as [p|]; cbn; [|exists []; rewrite app_nil_r; split; constructor].
      destruct (isDefined _); cbn; [|exists []; rewrite app_nil_r; split; constructor].
      destruct t as [t|]; cbn; [|exists []; rewrite app_nil_r; split; constructor].
      destruct glp as [lp|]; cbn; [|exists []; rewrite app_nil_r; split; constructor].
      eexists. split; [reflexivity|]. apply Paired_other; [reflexivity..|constructor]. }
    destruct HS as (more & Hmore & Hpm).
    exists (added ++ more). rewrite Hmore, Hcalls, app_assoc. split; [reflexivity|].
    now apply Paired_app.
Qed.

(** X9: haptics follow the parent link.  In the log of every session each
    [setParent] (a grab or a release) is followed at once by one pulse of
    intensity 0.2 and 50 ms, and there is no other pulse; so the pulses
    are as many as the [setParent] calls. *)
Theorem pulses_pair_with_reparenting (es : list Event) :
  Paired (calls (exec es))
  /\ count isPulse (calls (exec es)) = count isSetParent (calls (exec es)).
Proof.
  assert (H : Paired (calls (exec es))).
  { induction es as [|e es IH] using rev_ind; [constructor|].
    rewrite exec_snoc.
    destruct (dispatch_calls e (exec es) (Inv_exec es)) as (added & -> & Hp).
    now apply Paired_app. }
  split; [exact H|now apply Paired_count].
Qed.






(** ** The reel distance *)

Lemma leb_zero_atLeastZero (x : float) :
  (0 <=? x) = true -> atLeastZero (Prim2SF x) = true.
Proof.
  rewrite leb_spec. change (Prim2SF 0) with (S754_zero false).
  destruct (Prim2SF x) as [s|[]| |[] m e]; cbn; congruence.
Qed.

Lemma notAboveZero_ltb (x : float) :
  notAboveZero (Prim2SF x) = true -> (0 <? x) = false.
Proof.
  rewrite ltb_spec. change (Prim2SF 0) with (S754_zero false).
  destruct (Prim2SF x) as [s|[]| |[] m e]; cbn; congruence.
Qed.

Lemma binary_round_aux_notAboveZero (m e : Z) (l : location) :
  notAboveZero (binary_round_aux prec emax true m e l) = true.
Proof.
  unfold binary_round_aux.
  destruct (shr_fexp prec emax m e l) as [mrs' e'].
  destruct (shr_fexp prec emax _ e' loc_Exact) as [mrs'' e''].
  destruct (shr_m mrs''); cbn; try reflexivity.
  destruct (e'' <=? _)%Z; reflexivity.
Qed.

Lemma SFopp_notAboveZero (x : spec_float) :
  atLeastZero x = true -> notAboveZero (SFopp x) = true.
Proof. destruct x as [s|[]| |[] m e]; cbn; congruence. Qed.

Lemma SFmul_notAboveZero (x y : spec_float) :
  notAboveZero x = true -> atLeastZero y = true ->
  notAboveZero (SFmul prec emax x y) = true.
Proof.
  destruct x as [sx|[]| |[] mx ex], y as [sy|[]| |[] my ey]; cbn [notAboveZero atLeastZero];
    try discriminate; intros _ _; try reflexivity.
  cbn [SFmul xorb]. apply binary_round_aux_notAboveZero.
Qed.

Lemma leb_opp (a : float) : (a <=? 0) = true -> (0 <=? - a) = true.
Proof.
  rewrite !leb_spec, opp_spec. change (Prim2SF 0) with (S754_zero false).
  destruct (Prim2SF a) as [s|[]| |[] m e]; cbn; congruence.
Qed.

Lemma ltb_opp (x : float) : (0 <? - x) = false -> (x <? 0) = false.
Proof.
  rewrite !ltb_spec, opp_spec. change (Prim2SF 0) with (S754_zero false).
  destruct (Prim2SF x) as [s|[]| |[] m e]; cbn; congruence.
Qed.

Lemma moveDistance_opp (a dt : float) :
  moveDistance (- a) dt = - moveDistance a dt.
Proof. unfold moveDistance. now rewrite (mul_opp_l (- a)), mul_opp_l. Qed.

(** X11: the reel is symmetric.  Pushing and pulling the stick by the
    same amount for the same frame time gives distances that are exact
    opposites in binary64 arithmetic, so the two translations cancel in
    length. *)
Theorem moveDistance_odd (a dt : float) :
  moveDistance (- a) dt = - moveDistance a dt
  /\ abs (moveDistance (- a) dt) = abs (moveDistance a dt).
Proof.
  split; [apply moveDistance_opp|].
  rewrite moveDistance_opp. apply Prim2SF_inj. rewrite !abs_spec, opp_spec.
  now destruct (Prim2SF (moveDistance a dt)).
Qed.

(** X12: the side of the stick decides the direction.  For a
    non-negative frame time, an axis value that is zero or positive
    never gives a positive distance, and one that is zero or negative
    never gives a negative distance. *)
Theorem moveDistance_sign (a dt : float) :
  (0 <=? dt / 1000) = true ->
  ((0 <=? a) = true -> (0 <? moveDistance a dt) = false)
  /\ ((a <=? 0) = true -> (moveDistance a dt <? 0) = false).
Proof.
  intros Hs.
  assert (H : forall b, (0 <=? b) = true -> (0 <? moveDistance b dt) = false).
  { intros b Hb. apply notAboveZero_ltb. unfold moveDistance.
    rewrite !mul_spec, opp_spec. unfold SF64mul.
    apply SFmul_notAboveZero; [|reflexivity].
    apply SFmul_notAboveZero; [|now apply leb_zero_atLeastZero].
    now apply SFopp_notAboveZero, leb_zero_atLeastZero. }
  split; [apply H|].
  intros Ha. apply ltb_opp. rewrite <- moveDistance_opp. now apply H, leb_opp.
Qed.

Lemma moveDistance_sign_witness :
  (0 <? moveDistance 0.5 16) = false /\ (moveDistance (-0.5) 16 <? 0) = false.
Proof.
  destruct (moveDistance_sign 0.5 16) as [H1 _]; [reflexivity|].
  destruct (moveDistance_sign (-0.5) 16) as [_ H2]; [reflexivity|].
  split; [apply H1|apply H2]; reflexivity.
Defined.

(** ** Grab, then release *)

(** X13: a release undoes the re-parenting of the grab and nothing else
    of it.  After a press that hits a free object [m] and then a release,
    every parent link is what it was before the press, while [m] stays
    selected and highlighted and the selection transform stays at the hit
    distance; the log gained the two [setParent] calls, each with its
    pulse. *)
Theorem grab_then_release
  (f1 f2 : Frame.t) (g : Game.t) (rc : string)
  (mc1 mc2 : WebXRAbstractMotionController.t) (c1 c2 : WebXRControllerComponent.t)
  (m : MeshRef) (d : float) :
  ready g ->
  Game.rightController g = Some rc ->
  Frame.motionController f1 rc = Some mc1 ->
  WebXRAbstractMotionController.getComponent mc1 "xr-standard-trigger" = Some c1 ->
  pressEdge c1 = true ->
  Frame.motionController f2 rc = Some mc2 ->
  WebXRAbstractMotionController.getComponent mc2 "xr-standard-trigger" = Some c2 ->
  releaseEdge c2 = true ->
  parentOf g m = None ->
  pick (Game.scene g) (Frame.intersections f1 (pointerRay f1 rc))
    = PickingInfo.mk true (Some m) d ->
  exists g1 g2,
    onRightTrigger f1 (componentOf f1 g "xr-standard-trigger") g = Ok tt g1
    /\ onRightTrigger f2 (componentOf f2 g1 "xr-standard-trigger") g1 = Ok tt g2
    /\ (forall x, parentOf g2 x = parentOf g x)
    /\ Game.selectedObject g2 = Some m
    /\ highlighted g2 m = true
    /\ TransformNode.position (anchor g2) = Vector3.mk 0 0 d
    /\ calls g2 = calls g ++ deselectCalls g
                  ++ [Call.enableEdgesRendering m;
                      Call.setParent m (Some (OfTransform SelectionTransform));
                      Call.pulse rc 0.2 50;
                      Call.setParent m None;
                      Call.pulse rc 0.2 50].
Proof.
  intros Hready Hrc Hmc1 Hc1 Hpress Hmc2 Hc2 Hrel Hfree Hpick.
  destruct (press_hit_run f1 g rc mc1 c1 m d Hready Hrc Hmc1 Hc1 Hpress Hpick)
    as (g1 & Hrun1 & [[Hlp1 Hst1] Hrc1] & Hso1 & Hhl1 & Hpos1 & Hpar1 & Hcalls1).
  exists g1. cut (exists g2,
    onRightTrigger f2 (componentOf f2 g1 "xr-standard-trigger") g1 = Ok tt g2
    /\ (forall x, parentOf g2 x = parentOf g x)
    /\ Game.selectedObject g2 = Some m
    /\ highlighted g2 m = true
    /\ TransformNode.position (anchor g2) = Vector3.mk 0 0 d
    /\ calls g2 = calls g1 ++ [Call.setParent m None; Call.pulse rc 0.2 50]).
  { intros (g2 & H2 & H3 & H4 & H5 & H6 & H7). exists g2.
    repeat (split; [assumption|]). rewrite H7, Hcalls1, <- !app_assoc. reflexivity. }
  assert (Hothers : forall x, x <> m -> parentOf g1 x = parentOf g x).
  { clear - Hready Hrc Hmc1 Hc1 Hpress Hpick Hrun1.
    destruct Hready as [Hlp Hst]. intros x Hx. revert Hrun1.
    open_game g. subst. rewrite Hmc1, Hc1. enter_trigger Hpress.
    unfold pointerRay in Hpick. rewrite !pick_set_color, Hpick. cbn.
    destruct gso as [p|]; cbn; rewrite Hmc1; cbn; intros H; inversion H; subst;
      unfold parentOf, mesh; cbn;
      rewrite !(fn_lookup_alter_ne _ _ m x) by congruence; now through_alter. }
  revert Hfree Hothers Hhl1 Hpos1 Hpar1. generalize (parentOf g).
  clear Hrun1 Hpick Hcalls1 Hready Hrc.
  intros before Hfree Hothers Hhl1 Hpos1 Hpar1.
  open_game g1. subst. rewrite Hmc2, Hc2. enter_trigger Hrel. rewrite Hmc2. cbn.
  eexists. split; [reflexivity|].
  unfold parentOf, highlighted, anchor, calls, mesh. cbn.
  split.
  { intros x. destruct (decide (m = x)) as [<-|Hx].
    - rewrite fn_lookup_alter. cbn. now rewrite Hfree.
    - rewrite fn_lookup_alter_ne by assumption. through_alter. apply Hothers. congruence. }
  split; [reflexivity|]. split; [now through_alter|]. split; [exact Hpos1|].
  now rewrite <- app_assoc.
Qed.

Lemma grab_then_release_witness :
  exists g1 g2,
    onRightTrigger (Session.press 0 Session.crossings)
      (componentOf (Session.press 0 Session.crossings) Session.connected
         "xr-standard-trigger") Session.connected = Ok tt g1
    /\ onRightTrigger Session.letGo
         (componentOf Session.letGo g1 "xr-standard-trigger") g1 = Ok tt g2
    /\ (forall x, parentOf g2 x = parentOf Session.connected x)
    /\ Game.selectedObject g2 = Some (Cube 4)
    /\ highlighted g2 (Cube 4) = true.
Proof.
  destruct (grab_then_release (Session.press 0 Session.crossings) Session.letGo
              Session.connected Session.right
              (Session.controller (Session.button true true) (Some (Session.stick 0)))
              (Session.controller (Session.button false true) (Some (Session.stick 0)))
              (Session.button true true) (Session.button false true) (Cube 4) 2)
    as (g1 & g2 & H1 & H2 & H3 & H4 & H5 & _); try reflexivity.
  { split; reflexivity. }
  exists g1, g2. repeat split; assumption.
Defined.

(** ** The first version of the class *)

Ltac close_field :=
  through_alters; split_alter; cbn; through_alters; first [reflexivity | congruence].

Ltac close_agree :=
  unfold agree, mesh, calls; cbn;
  do 5 (split; [reflexivity|]);
  split;
  [ let x := fresh "x" in
    intros x; do 5 (split; [close_field|]);
    let Hx := fresh "Hx" in
    intros Hx; close_field
  | split; [intros; reflexivity|];
    rewrite ?List.filter_app; cbn; rewrite ?app_nil_r; reflexivity ].

(** X14: the two versions of the trigger handler differ only in the
    pointer's colour and in the haptic pulses.  From the same state and
    component, both complete or both throw, and the states they stop in
    have the same controllers, selection, parent links, highlights,
    visibilities and selection transform, and the same log once the
    pulses are left out. *)
Theorem versions_agree
  (f : Frame.t) (c : option WebXRControllerComponent.t) (g : Game.t) :
  Game.laserPointer g = Some LaserPointer ->
  completed (Lecture12.onRightTrigger f c g) = completed (onRightTrigger f c g)
  /\ agree (final (Lecture12.onRightTrigger f c g)) (final (onRightTrigger f c g)).
Proof.
  intros Hlp. unfold Lecture12.onRightTrigger, onRightTrigger.
  destruct (isDefined _); [|split; [reflexivity|]; close_agree].
  destruct (default false _).
  - open_game g. subst. unfold_M12. cbn.
    destruct grc as [rc|]; cbn; [|split; [reflexivity|]; close_agree].
    rewrite !pick_set_color.
    destruct (pick _ _) as [hit pm d].
    destruct gso as [p|], hit, pm as [m|], gst as [[]|]; cbn;
      try destruct (isDefined (Frame.motionController f rc)); cbn;
      (split; [reflexivity|]); close_agree.
  - open_game g. subst. unfold_M12. cbn.
    destruct gso as [p|], grc as [rc|]; cbn;
      try destruct (isDefined (Frame.motionController f rc)); cbn;
      (split; [reflexivity|]); close_agree.
Qed.

Lemma versions_agree_witness :
  completed (Lecture12.onRightTrigger Session.letGo
               (Some (Session.button false true)) Session.holding) = true
  /\ agree (final (Lecture12.onRightTrigger Session.letGo
                     (Some (Session.button false true)) Session.holding))
           (final (onRightTrigger Session.letGo
                     (Some (Session.button false true)) Session.holding)).
Proof.
  destruct (versions_agree Session.letGo (Some (Session.button false true))
              Session.holding) as [H1 H2]; [reflexivity|].
  split; [rewrite H1; reflexivity|exact H2].
Defined.

Lemma Lecture12_exec_snoc (es : list Event) (e : Event) :
  Lecture12.exec (es ++ [e]) = final (Lecture12.dispatch e (Lecture12.exec es)).
Proof. unfold Lecture12.exec. now rewrite fold_left_app. Qed.

(** In the first version a callback completes in a state where the laser
    pointer and the selection transform exist, and keeps them. *)
Lemma Lecture12_dispatch_completes (e : Event) (g : Game.t) :
  ready g ->
  completed (Lecture12.dispatch e g) = true
  /\ ready (final (Lecture12.dispatch e g)).
Proof.
  intros [Hlp Hst]. destruct e as [uid|uid|f]; cbn [Lecture12.dispatch].
  - unfold onControllerAdded. destruct (endsWith uid "right");
      open_game g; subst; unfold_M; cbn; repeat split.
  - open_game g. subst. unfold_M12. cbn. repeat split.
  - unfold Lecture12.update, Lecture12.processControllerInput, rightComponent.
    unfold componentOf, rightMotionController. cbv [mbind M_bind mret M_ret get].
    destruct (Game.rightController g) as [rc|] eqn:Hrc; [|cbn; repeat split; assumption].
    destruct (Frame.motionController f rc) as [mc|]; [|cbn; repeat split; assumption].
    destruct (WebXRAbstractMotionController.getComponent mc _) as [c|];
      [|cbn; repeat split; assumption].
    unfold Lecture12.onRightTrigger. cbn [mbind option_bind].
    destruct (isDefined _); [|cbn; repeat split; assumption].
    cbn [fmap option_fmap option_map default].
    open_game g. subst.
    destruct (WebXRControllerComponent.pressed c); unfold_M12; cbn.
    + rewrite pick_set_color.
      destruct (PickingInfo.hit (pick _ _)) eqn:Ehit.
      * destruct (pick_hit _ _ Ehit) as (m & d & -> & _ & _). cbn.
        destruct gso as [p|]; cbn; repeat split.
      * destruct gso as [p|]; cbn; repeat split.
    + destruct gso as [p|]; cbn; repeat split.
Qed.

Lemma Lecture12_ready (es : list Event) : ready (Lecture12.exec es).
Proof.
  induction es as [|e es IH] using rev_ind; [split; reflexivity|].
  rewrite Lecture12_exec_snoc. now apply Lecture12_dispatch_completes.
Qed.

(** X15: the first version never throws.  In every session of the first
    version every callback (a controller added or removed, a frame)
    completes: it has no thumbstick handler to read a missing
    component. *)
Theorem first_version_never_throws (es : list Event) (e : Event) :
  completed (Lecture12.dispatch e (Lecture12.exec es)) = true.
Proof.
  apply Lecture12_dispatch_completes, Lecture12_ready.
Qed.

(** X16: in the first version removing any controller detaches and hides
    the laser pointer, the left one included; the later version leaves
    the state as it is unless the identifier ends in "right". *)
Theorem removing_left_controller (uid : string) (g : Game.t) :
  ready g ->
  (~ exists p, uid = p +:+ "right") ->
  (exists g',
      Lecture12.onControllerRemoved uid g = Ok tt g'
      /\ parentOf g' LaserPointer = None
      /\ AbstractMesh.visibility (mesh g' LaserPointer) = 0)
  /\ onControllerRemoved uid g = Ok tt g.
Proof.
  intros [Hlp Hst] Hn. split.
  - open_game g. subst. unfold_M12. cbn.
    eexists. split; [reflexivity|].
    unfold parentOf, mesh. cbn. now rewrite !fn_lookup_alter.
  - unfold onControllerRemoved. destruct (endsWith uid "right") eqn:E; [|reflexivity].
    apply endsWith_iff in E. contradiction.
Qed.

Lemma removing_left_controller_witness :
  (exists g',
      Lecture12.onControllerRemoved "controller-1-tracked-pointer-left" Session.holding
      = Ok tt g'
      /\ parentOf g' LaserPointer = None
      /\ AbstractMesh.visibility (mesh g' LaserPointer) = 0)
  /\ onControllerRemoved "controller-1-tracked-pointer-left" Session.holding
     = Ok tt Session.holding.
Proof.
  apply (removing_left_controller "controller-1-tracked-pointer-left" Session.holding).
  - split; reflexivity.
  - intros [p Hp]. apply (f_equal (fun s => endsWith s "right")) in Hp.
    rewrite (proj2 (endsWith_iff (p +:+ "right") "right")) in Hp by eauto.
    vm_compute in Hp. discriminate.
Defined.

(** The colour the first version leaves after a trigger handler. *)
Lemma Lecture12_trigger_colour
  (f : Frame.t) (c : option WebXRControllerComponent.t) (g : Game.t) :
  ready g ->
  let g' := final (Lecture12.onRightTrigger f c g) in
  laserColor g'
  = match c with
    | Some b =>
        if pressEdge b then Color3.Green
        else if releaseEdge b then Color3.Yellow else laserColor g
    | None => laserColor g
    end.
Proof.
  intros [Hlp Hst] g'. subst g'. unfold Lecture12.onRightTrigger, pressEdge, releaseEdge.
  destruct c as [b|]; [|reflexivity]. cbn [mbind option_bind].
  destruct (isDefined _); [|reflexivity].
  cbn [fmap option_fmap option_map default andb].
  open_game g. subst.
  destruct (WebXRControllerComponent.pressed b); unfold_M12; cbn.
  - destruct grc as [rc|]; cbn; [|now rewrite fn_lookup_alter].
    rewrite pick_set_color.
    destruct (pick _ _) as [hit pm d].
    destruct gso as [p|], hit, pm as [m|]; cbn; through_alter; now rewrite fn_lookup_alter.
  - destruct gso as [p|]; cbn; through_alter; now rewrite fn_lookup_alter.
Qed.

(** X17: in the first version the pointer's colour tells the trigger's
    last edge.  A press edge leaves it green and a release edge leaves it
    yellow, the colour [createScene] gave it; nothing else writes it, so
    in every session it is yellow or green. *)
Theorem first_version_colours (es : list Event) :
  (laserColor (Lecture12.exec es) = Color3.Yellow
   \/ laserColor (Lecture12.exec es) = Color3.Green)
  /\ laserColor (Lecture12.exec []) = Color3.Yellow
  /\ forall f c,
       componentOf f (Lecture12.exec es) "xr-standard-trigger" = Some c ->
       laserColor (Lecture12.exec (es ++ [RenderLoop f]))
       = if pressEdge c then Color3.Green
         else if releaseEdge c then Color3.Yellow
              else laserColor (Lecture12.exec es).
Proof.
  assert (Hstep : forall es f,
             laserColor (Lecture12.exec (es ++ [RenderLoop f]))
             = match componentOf f (Lecture12.exec es) "xr-standard-trigger" with
               | Some b =>
                   if pressEdge b then Color3.Green
                   else if releaseEdge b then Color3.Yellow
                        else laserColor (Lecture12.exec es)
               | None => laserColor (Lecture12.exec es)
               end).
  { intros es' f. rewrite Lecture12_exec_snoc. cbn [Lecture12.dispatch].
    apply (Lecture12_trigger_colour f _ _ (Lecture12_ready es')). }
  split; [|split; [reflexivity|]].
  - induction es as [|e es IH] using rev_ind; [now left|].
    destruct e as [uid|uid|f].
    + rewrite Lecture12_exec_snoc. cbn [Lecture12.dispatch].
      destruct (Lecture12_ready es) as [Hlp Hst]. revert IH Hlp.
      generalize (Lecture12.exec es). intros g IH Hlp.
      unfold onControllerAdded. destruct (endsWith uid "right"); [|exact IH].
      open_game g. subst. unfold_M. cbn. now through_alter.
    + rewrite Lecture12_exec_snoc. cbn [Lecture12.dispatch].
      destruct (Lecture12_ready es) as [Hlp Hst]. revert IH Hlp.
      generalize (Lecture12.exec es). intros g IH Hlp.
      open_game g. subst. unfold_M12. cbn. now through_alter.
    + rewrite Hstep.
      destruct (componentOf f _ _) as [b|]; [|exact IH].
      destruct (pressEdge b); [now right|].
      destruct (releaseEdge b); [now left|exact IH].
  - intros f c Hc. now rewrite Hstep, Hc.
Qed.

Lemma first_version_colours_witness :
  laserColor (Lecture12.exec ([ControllerAdded Session.right;
                               RenderLoop (Session.press 0 Session.crossings)]
                              ++ [RenderLoop Session.letGo]))
  = Color3.Yellow.
Proof.
  destruct (first_version_colours [ControllerAdded Session.right;
                                   RenderLoop (Session.press 0 Session.crossings)])
    as (_ & _ & H).
  rewrite (H Session.letGo (Session.button false true)); reflexivity.
Defined.

(** ** More of the later version *)

(** X18: the thumbstick handler writes nothing but the log.  Whatever the
    state and the component, it either stops in the state it started in
    (nothing held, or the component missing and a [TypeError]) or
    completes having recorded exactly one [translate] of the selected,
    parented object, in world space, along the laser pointer's forward
    direction. *)
Theorem thumbstick_only_translates
  (f : Frame.t) (t : option WebXRControllerComponent.t) (g : Game.t) :
  final (onRightThumbstick f t g) = g
  \/ exists m c lp,
       Game.selectedObject g = Some m
       /\ isDefined (parentOf g m) = true
       /\ t = Some c
       /\ Game.laserPointer g = Some lp
       /\ onRightThumbstick f t g
          = Ok tt (recorded
                     (Call.translate m (Frame.forward f lp)
                        (moveDistance
                           (WebXRControllerComponent.y (WebXRControllerComponent.axes c))
                           (Frame.getDeltaTime f)) WORLD) g).
Proof.
  unfold onRightThumbstick, recorded. open_game g. unfold_M. cbn.
  destruct gso as [m|]; [|now left].
  destruct (isDefined (AbstractMesh.parent (gms m))) eqn:Hpar; [|now left].
  destruct t as [c|]; [|now left].
  destruct glp as [lp|]; [|now left].
  right. exists m, c, lp. cbn. auto.
Qed.

Lemma thumbstick_final
  (f : Frame.t) (t : option WebXRControllerComponent.t) (g : Game.t) :
  final (onRightThumbstick f t g) = g
  \/ exists c, final (onRightThumbstick f t g) = recorded c g.
Proof.
  unfold onRightThumbstick, recorded. open_game g. unfold_M. cbn.
  destruct gso as [m|]; [|now left].
  destruct (isDefined (AbstractMesh.parent (gms m))); [|now left].
  destruct t as [c|]; [|now left].
  destruct glp as [lp|]; [|now left].
  right. eexists. reflexivity.
Qed.

Lemma controller_refs_step (rightSide : bool) (e : Event) (g : Game.t) :
  ready g ->
  (if rightSide then Game.rightController else Game.leftController)
    (final (dispatch e g))
  = match e with
    | ControllerAdded uid =>
        if Bool.eqb (endsWith uid "right") rightSide then Some uid
        else (if rightSide then Game.rightController else Game.leftController) g
    | _ => (if rightSide then Game.rightController else Game.leftController) g
    end.
Proof.
  intros [Hlp Hst]. destruct e as [uid|uid|f]; cbn [dispatch].
  - unfold onControllerAdded. destruct (endsWith uid "right"), rightSide;
      open_game g; subst; reflexivity.
  - unfold onControllerRemoved. destruct (endsWith uid "right"), rightSide;
      open_game g; subst; reflexivity.
  - unfold update. rewrite processControllerInput_eq.
    assert (HT : forall c,
               Game.rightController (final (onRightTrigger f c g)) = Game.rightController g
               /\ Game.leftController (final (onRightTrigger f c g)) = Game.leftController g).
    { intros c. unfold onRightTrigger.
      destruct (isDefined _); [|now split].
      destruct (default false _); open_game g; subst; unfold_M; cbn.
      - destruct grc as [rc|]; cbn; [|now split].
        destruct (pick _ _) as [hit pm d].
        destruct gso as [p|], hit, pm as [m|]; cbn;
          try destruct (isDefined (Frame.motionController f rc)); cbn; now split.
      - destruct gso as [p|], grc as [rc|]; cbn;
          try destruct (isDefined (Frame.motionController f rc)); cbn; now split. }
    specialize (HT (componentOf f g "xr-standard-trigger")).
    assert (HS : forall t g1,
               Game.rightController (final (onRightThumbstick f t g1)) = Game.rightController g1
               /\ Game.leftController (final (onRightThumbstick f t g1)) = Game.leftController g1).
    { intros t g1. destruct (thumbstick_final f t g1) as [->|[c ->]]; now split. }
    destruct (onRightTrigger f _ g) as [[] g1|g1]; cbn [final] in *.
    + destruct (HS (componentOf f g1 "xr-standard-thumbstick") g1) as [H1 H2].
      destruct HT as [H3 H4]. destruct rightSide; congruence.
    + destruct HT as [H3 H4]. destruct rightSide; congruence.
Qed.

(** X19: the controller references are never cleared.  In every session
    [rightController] is the controller with an identifier ending in
    "right" that was added last, and [leftController] the other
    controller added last, whether or not they were removed since: a
    removed controller stays referenced. *)
Theorem controller_references (es : list Event) :
  Game.rightController (exec es) = lastAdded true es
  /\ Game.leftController (exec es) = lastAdded false es.
Proof.
  assert (H : forall side : bool,
             (if side then Game.rightController else Game.leftController) (exec es)
             = lastAdded side es).
  { intros side. induction es as [|e es IH] using rev_ind; [now destruct side|].
    rewrite exec_snoc, (controller_refs_step side e _ (inv_ready _ (Inv_exec es))).
    unfold lastAdded. rewrite fold_left_app. cbn [fold_left]. fold (lastAdded side es).
    rewrite IH. now destruct e. }
  split; [apply (H true)|apply (H false)].
Qed.
